(** * Observ Python SDK: gateway interception layer

    A shallow embedding of [watchtower/__init__.py] and of the provider
    adapters under [watchtower/providers/] (base, anthropic, mistral,
    gemini), with the properties of the natural-language specification
    stated over it.

    Python objects are dynamically typed, so the embedding works over one
    type [pyval] of Python values.  Code that can raise returns in [exc];
    code that talks to the gateway, to the provider SDK, to the clock or to
    the console runs in the state-and-exception monad [M] over a [world]
    that logs every such interaction. *)

From Stdlib Require Import List String Ascii ZArith Bool Lia DecimalString.
Import ListNotations.

#[local] Set Warnings "-register-all".

Local Open Scope string_scope.
Local Open Scope Z_scope.

(* ================================================================== *)
(** ** Python values *)

(** The values the SDK handles: JSON data, [*args]/[**kwargs], provider
    request and response objects.  A [dict] keeps insertion order, so it is
    an association list; only string keys occur in this code.  An object is
    its class line (the class followed by its bases, as [isinstance] sees
    it) and its attributes.  A bound method is named by its owner and its
    name.  Floating point numbers do not occur in the modelled paths. *)
Inductive pyval : Type :=
| PNone
| PBool (b : bool)
| PInt (z : Z)
| PStr (s : string)
| PList (l : list pyval)
| PDict (d : list (string * pyval))
| PObj (cls : list string) (attrs : list (string * pyval))
| PMethod (owner : string) (name : string).

(** Exceptions deriving from Python's [Exception].  The message each one
    carries follows the interpreter's text in outline only.  Signals that
    derive from [BaseException] only ([KeyboardInterrupt], [SystemExit])
    are not raised by any modelled operation. *)
Inductive exn : Type :=
| AttributeError (msg : string)
| TypeError (msg : string)
| IndexError (msg : string)
| KeyError (msg : string)
| ImportError (msg : string)
| RecursionError
| TransportError (msg : string)      (* httpx: connect failure, timeout *)
| HTTPStatusError (status : Z)       (* httpx: raise_for_status *)
| JSONDecodeError                    (* response.json() on a malformed body *)
| ProviderError (msg : string).      (* raised by the provider SDK *)

Inductive exc (A : Type) : Type :=
| Ok (a : A)
| Raise (e : exn).
Arguments Ok {A} a.
Arguments Raise {A} e.

Definition exc_bind {A B} (x : exc A) (f : A -> exc B) : exc B :=
  match x with
  | Ok a => f a
  | Raise e => Raise e
  end.

Declare Scope exc_scope.
Delimit Scope exc_scope with exc.
Notation "'let?' x ':=' c 'in' k" := (exc_bind c (fun x => k))
  (at level 10, x name, c at level 100, k at level 200) : exc_scope.

(** Association-list lookup: first binding of the key. *)
Fixpoint assoc {A} (k : string) (l : list (string * A)) : option A :=
  match l with
  | [] => None
  | (k', v) :: r => if String.eqb k k' then Some v else assoc k r
  end.

(** [obj.name = v] and [d[name] = v]: overwrite in place, or append. *)
Fixpoint assoc_set {A} (k : string) (v : A) (l : list (string * A))
  : list (string * A) :=
  match l with
  | [] => [(k, v)]
  | (k', v') :: r =>
      if String.eqb k k' then (k, v) :: r else (k', v') :: assoc_set k v r
  end.

Definition type_name (v : pyval) : string :=
  match v with
  | PNone => "NoneType"
  | PBool _ => "bool"
  | PInt _ => "int"
  | PStr _ => "str"
  | PList _ => "list"
  | PDict _ => "dict"
  | PObj cls _ => hd "object" cls
  | PMethod _ _ => "method"
  end.

(** [d.get(k, default)] on a dict. *)
Definition dict_get (d : list (string * pyval)) (k : string) (default : pyval)
  : pyval :=
  match assoc k d with
  | Some v => v
  | None => default
  end.

(** [hasattr(v, name)]: only objects carry the attributes this code asks
    for ([role], [content], [parts], [usage], ...). *)
Definition hasattr (v : pyval) (name : string) : bool :=
  match v with
  | PObj _ attrs => match assoc name attrs with Some _ => true | None => false end
  | _ => false
  end.

(** [v.name] *)
Definition getattr (v : pyval) (name : string) : exc pyval :=
  match v with
  | PObj _ attrs =>
      match assoc name attrs with
      | Some x => Ok x
      | None => Raise (AttributeError name)
      end
  | _ => Raise (AttributeError name)
  end.

(** [getattr(v, name, default)] *)
Definition getattr_default (v : pyval) (name : string) (default : pyval)
  : pyval :=
  match getattr v name with
  | Ok x => x
  | Raise _ => default
  end.

(** [obj.name = x] *)
Definition setattr (v : pyval) (name : string) (x : pyval) : exc pyval :=
  match v with
  | PObj cls attrs => Ok (PObj cls (assoc_set name x attrs))
  | _ => Raise (AttributeError name)
  end.

(** [v.get(k, default)] as a method call on an arbitrary value: only a
    dict has the method. *)
Definition method_get (v : pyval) (k : string) (default : pyval) : exc pyval :=
  match v with
  | PDict d => Ok (dict_get d k default)
  | _ => Raise (AttributeError "get")
  end.

(** [isinstance(v, C)] for a class [C] of a provider package. *)
Definition isinstance (v : pyval) (C : string) : bool :=
  match v with
  | PObj cls _ => existsb (String.eqb C) cls
  | _ => false
  end.

Definition is_str (v : pyval) : bool :=
  match v with PStr _ => true | _ => false end.
Definition is_list (v : pyval) : bool :=
  match v with PList _ => true | _ => false end.
Definition is_dict (v : pyval) : bool :=
  match v with PDict _ => true | _ => false end.

(** Truth value testing ([if v], [v or w]). *)
Definition truthy (v : pyval) : bool :=
  match v with
  | PNone => false
  | PBool b => b
  | PInt z => negb (z =? 0)
  | PStr s => negb (String.eqb s "")
  | PList l => match l with [] => false | _ => true end
  | PDict d => match d with [] => false | _ => true end
  | PObj _ _ => true
  | PMethod _ _ => true
  end.

(** [a or b] *)
Definition py_or (a b : pyval) : pyval := if truthy a then a else b.

(** [len(v)] *)
Definition py_len (v : pyval) : exc Z :=
  match v with
  | PStr s => Ok (Z.of_nat (String.length s))
  | PList l => Ok (Z.of_nat (List.length l))
  | PDict d => Ok (Z.of_nat (List.length d))
  | _ => Raise (TypeError ("object of type '" ++ type_name v ++ "' has no len()"))
  end.

Definition chars (s : string) : list pyval :=
  map (fun c => PStr (String c EmptyString)) (list_ascii_of_string s).

(** [v[0]] *)
Definition index0 (v : pyval) : exc pyval :=
  match v with
  | PList l =>
      match l with
      | x :: _ => Ok x
      | [] => Raise (IndexError "list index out of range")
      end
  | PStr s =>
      match s with
      | String c _ => Ok (PStr (String c EmptyString))
      | EmptyString => Raise (IndexError "string index out of range")
      end
  | PDict _ => Raise (KeyError "0")
  | _ => Raise (TypeError ("'" ++ type_name v ++ "' object is not subscriptable"))
  end.

(** The items a [for] loop draws from [v]. *)
Definition py_iter (v : pyval) : exc (list pyval) :=
  match v with
  | PList l => Ok l
  | PStr s => Ok (chars s)
  | PDict d => Ok (map (fun kv => PStr (fst kv)) d)
  | _ => Raise (TypeError ("'" ++ type_name v ++ "' object is not iterable"))
  end.

(** [a + b]; a bool counts as the int 0 or 1. *)
Definition as_int (v : pyval) : option Z :=
  match v with
  | PInt z => Some z
  | PBool b => Some (if b then 1 else 0)
  | _ => None
  end.

Definition py_add (a b : pyval) : exc pyval :=
  match as_int a, as_int b with
  | Some x, Some y => Ok (PInt (x + y))
  | _, _ =>
      match a, b with
      | PStr x, PStr y => Ok (PStr (x ++ y))
      | PList x, PList y => Ok (PList (x ++ y))
      | _, _ => Raise (TypeError "unsupported operand type(s) for +")
      end
  end.

Definition str_of_Z (z : Z) : string := NilZero.string_of_int (Z.to_int z).

(** [repr(v)].  The escaping of quotes and control characters inside a
    string literal, and the address in the default [repr] of an object,
    are left out. *)
Fixpoint py_repr (v : pyval) : string :=
  match v with
  | PNone => "None"
  | PBool b => if b then "True" else "False"
  | PInt z => str_of_Z z
  | PStr s => "'" ++ s ++ "'"
  | PList l =>
      "[" ++ (fix items (l : list pyval) : string :=
                match l with
                | [] => ""
                | x :: r =>
                    py_repr x ++ match r with [] => "" | _ => ", " ++ items r end
                end) l ++ "]"
  | PDict d =>
      "{" ++ (fix items (d : list (string * pyval)) : string :=
                match d with
                | [] => ""
                | (k, x) :: r =>
                    "'" ++ k ++ "': " ++ py_repr x
                    ++ match r with [] => "" | _ => ", " ++ items r end
                end) d ++ "}"
  | PObj cls _ => "<" ++ hd "object" cls ++ " object>"
  | PMethod owner name => "<bound method " ++ owner ++ "." ++ name ++ ">"
  end.

(** [str(v)] *)
Definition py_str (v : pyval) : string :=
  match v with
  | PStr s => s
  | _ => py_repr v
  end.

(** [str(e)] for the exceptions above, as an f-string prints it. *)
Definition exn_str (e : exn) : string :=
  match e with
  | AttributeError m => "object has no attribute '" ++ m ++ "'"
  | TypeError m => m
  | IndexError m => m
  | KeyError m => m
  | ImportError m => m
  | RecursionError => "maximum recursion depth exceeded"
  | TransportError m => m
  | HTTPStatusError s => "HTTP status " ++ str_of_Z s
  | JSONDecodeError => "Expecting value"
  | ProviderError m => m
  end.

(* ================================================================== *)
(** ** The world: gateway, provider SDK, clock, console *)

(** One call of [http_client.post(url, json=..., headers=..., timeout=...)].
    [timeout = None] stands for the client-wide default of the session. *)
Record http_request : Type := mk_request {
  url : string;
  json : pyval;
  headers : list (string * string);
  timeout : option Z
}.

(** What the transport answers: a failure below HTTP (connection refused,
    timeout), or a response with a status code and a body, [None] for a
    body that is not JSON. *)
Inductive http_outcome : Type :=
| NetworkFailure (msg : string)
| Response (status : Z) (body : option pyval).

(** The HTTP client of the session: its answer to a request, given the
    requests it has served before. *)
Definition transport : Type := list http_request -> http_request -> http_outcome.

(** A provider SDK entry point ([messages.create], [chat.completions.create],
    [GenerativeModel.generate_content]): its outcome for [*args, **kwargs],
    given the calls it has served before. *)
Definition call : Type := (list pyval * list (string * pyval))%type.
Definition provider_sdk : Type := list call -> call -> exc pyval.

(** A reading of [time.time()]: a float, in seconds.  Floating point
    arithmetic is not interpreted here: a reading is an opaque token. *)
Inductive pyfloat : Type := Float (token : Z).

(** The host's clock.  [reading] is what [time.time()] returns, given the
    requests sent and the provider calls made so far and the number of
    earlier readings, so that a reading taken before a provider call and
    one taken after it are told apart.  [int_ms earlier later] is the
    host's value of [int((later - earlier) * 1000)]. *)
Record host_clock : Type := mk_clock {
  reading : list http_request -> list call -> nat -> pyfloat;
  int_ms : pyfloat -> pyfloat -> Z
}.

(** Everything an intercepted call can observe or change outside its own
    frame.  [pending_metadata] and [pending_session_id] are the adapter
    instance's [_metadata] and [_session_id]. *)
Record world : Type := mk_world {
  http_log : list http_request;
  sdk_log : list call;
  stdout : list string;
  clock : host_clock;
  clock_reads : nat;
  pending_metadata : pyval;
  pending_session_id : pyval
}.

Definition M (A : Type) : Type := world -> exc A * world.

Definition ret {A} (a : A) : M A := fun w => (Ok a, w).
Definition raise {A} (e : exn) : M A := fun w => (Raise e, w).
Definition bind {A B} (m : M A) (k : A -> M B) : M B :=
  fun w =>
    match m w with
    | (Ok a, w') => k a w'
    | (Raise e, w') => (Raise e, w')
    end.

(** [try: body except Exception as e: handler e] *)
Definition try_except {A} (body : M A) (handler : exn -> M A) : M A :=
  fun w =>
    match body w with
    | (Ok a, w') => (Ok a, w')
    | (Raise e, w') => handler e w'
    end.

Definition lift {A} (x : exc A) : M A := fun w => (x, w).

Declare Scope monad_scope.
Delimit Scope monad_scope with monad.
Notation "x <- c ;; k" := (bind c (fun x => k))
  (at level 61, c at next level, right associativity) : monad_scope.
Notation "c ;;; k" := (bind c (fun _ => k))
  (at level 61, right associativity) : monad_scope.
Local Open Scope monad_scope.

(** The changes an effect makes to the world. *)
Definition log_line (line : string) (w : world) : world :=
  mk_world (http_log w) (sdk_log w) (stdout w ++ [line])
           (clock w) (clock_reads w) (pending_metadata w) (pending_session_id w).
Definition tick (w : world) : world :=
  mk_world (http_log w) (sdk_log w) (stdout w)
           (clock w) (S (clock_reads w)) (pending_metadata w) (pending_session_id w).
Definition log_post (rq : http_request) (w : world) : world :=
  mk_world (http_log w ++ [rq]) (sdk_log w) (stdout w)
           (clock w) (clock_reads w) (pending_metadata w) (pending_session_id w).
Definition log_call (c : call) (w : world) : world :=
  mk_world (http_log w) (sdk_log w ++ [c]) (stdout w)
           (clock w) (clock_reads w) (pending_metadata w) (pending_session_id w).

Definition print (line : string) : M unit := fun w => (Ok tt, log_line line w).

(** [time.time()] *)
Definition time_time : M pyfloat :=
  fun w => (Ok (reading (clock w) (http_log w) (sdk_log w) (clock_reads w)),
            tick w).

(** [int((later - earlier) * 1000)] *)
Definition elapsed_ms (earlier later : pyfloat) : M Z :=
  fun w => (Ok (int_ms (clock w) earlier later), w).

(** [http.post(...)]: logs the request; raises on a transport failure. *)
Definition post (http : transport) (rq : http_request) : M (Z * option pyval) :=
  fun w =>
    match http (http_log w) rq with
    | NetworkFailure msg => (Raise (TransportError msg), log_post rq w)
    | Response status body => (Ok (status, body), log_post rq w)
    end.

(** [response.raise_for_status()]: httpx raises unless the status is 2xx. *)
Definition raise_for_status (r : Z * option pyval) : exc unit :=
  if (200 <=? fst r) && (fst r <? 300) then Ok tt
  else Raise (HTTPStatusError (fst r)).

(** [response.json()] *)
Definition response_json (r : Z * option pyval) : exc pyval :=
  match snd r with
  | Some v => Ok v
  | None => Raise JSONDecodeError
  end.

(** A call into the provider SDK itself: logged, then answered by the SDK. *)
Definition sdk_invoke (sdk : provider_sdk) (args : list pyval)
           (kwargs : list (string * pyval)) : M pyval :=
  fun w => (sdk (sdk_log w) (args, kwargs), log_call (args, kwargs) w).

(* ================================================================== *)
(** ** providers/base.py *)

(** One iteration of the loop of [convert_messages_to_gateway_format]. *)
Definition convert_message (msg : pyval) : pyval :=
  match msg with
  | PDict d =>
      PDict [("role", dict_get d "role" (PStr "user"));
             ("content", dict_get d "content" (PStr ""))]
  | _ =>
      PDict [("role", getattr_default msg "role" (PStr "user"));
             ("content", getattr_default msg "content" (PStr ""))]
  end.

Definition convert_messages_to_gateway_format (messages : pyval) : exc pyval :=
  (let? items := py_iter messages in
   Ok (PList (map convert_message items)))%exc.

(** The session object: the fields set by [Observ.__init__]. *)
Record Observ : Type := mk_Observ {
  api_key : string;
  project_id : string;
  recall : bool;
  environment : string;
  endpoint : string;
  http_client : transport
}.

Definition build_completion_request (provider : string) (model : pyval)
           (gateway_messages : pyval) (observ_instance : Observ)
           (metadata : pyval) (session_id : pyval) : pyval :=
  let request :=
    [("provider", PStr provider);
     ("model", model);
     ("messages", gateway_messages);
     ("features", PDict [("trace", PBool true);
                         ("recall", PBool (recall observ_instance));
                         ("resilience", PBool false);
                         ("adapt", PBool false)]);
     ("environment", PStr (environment observ_instance));
     ("metadata", metadata)] in
  PDict (if truthy session_id
         then assoc_set "external_session_id" session_id request
         else request).

(* ================================================================== *)
(** ** watchtower/__init__.py: the callback reporters *)

(** The [callback] dict and the POST that carries it. *)
Definition callback_request (wt : Observ) (trace_id content : pyval)
           (duration_ms : Z) (tokens_used : pyval) : http_request :=
  mk_request (endpoint wt ++ "/api/v1/llm/callback")
             (PDict [("trace_id", trace_id);
                     ("content", content);
                     ("duration_ms", PInt duration_ms);
                     ("tokens_used", tokens_used)])
             [] (Some 5).

(** [_send_callback], lines 96-102: content and tokens of an Anthropic
    response. *)
Definition anthropic_content (response : pyval) : exc pyval :=
  (if hasattr response "content" then
     let? c := getattr response "content" in
     let? n := py_len c in
     if n >? 0 then
       let? block := index0 c in getattr block "text"
     else Ok (PStr "")
   else Ok (PStr ""))%exc.

Definition anthropic_tokens (response : pyval) : exc pyval :=
  (if hasattr response "usage" then
     let? usage := getattr response "usage" in
     py_add (getattr_default usage "input_tokens" (PInt 0))
            (getattr_default usage "output_tokens" (PInt 0))
   else Ok (PInt 0))%exc.

Definition _send_callback (wt : Observ) (trace_id response : pyval)
           (duration_ms : Z) : M unit :=
  try_except
    (content <- lift (anthropic_content response) ;;
     tokens_used <- lift (anthropic_tokens response) ;;
     post (http_client wt)
          (callback_request wt trace_id content duration_ms tokens_used) ;;;
     ret tt)
    (fun e => print ("Observ callback error: " ++ exn_str e)).

(** [_send_callback_openai], lines 122-134; [_send_callback_mistral] has
    the same text (lines 189-201). *)
Definition openai_content (response : pyval) : exc pyval :=
  (if hasattr response "choices" then
     let? choices := getattr response "choices" in
     let? n := py_len choices in
     if n >? 0 then
       let? choice := index0 choices in
       let? message := getattr choice "message" in
       if hasattr message "content" then
         let? c := getattr message "content" in Ok (py_or c (PStr ""))
       else Ok (PStr "")
     else Ok (PStr "")
   else Ok (PStr ""))%exc.

Definition openai_tokens (response : pyval) : exc pyval :=
  (if hasattr response "usage" then
     let? usage := getattr response "usage" in
     if hasattr usage "total_tokens" then getattr usage "total_tokens"
     else if hasattr usage "prompt_tokens" && hasattr usage "completion_tokens"
     then
       let? p := getattr usage "prompt_tokens" in
       let? c := getattr usage "completion_tokens" in
       py_add p c
     else Ok (PInt 0)
   else Ok (PInt 0))%exc.

Definition _send_callback_openai (wt : Observ) (trace_id response : pyval)
           (duration_ms : Z) : M unit :=
  try_except
    (content <- lift (openai_content response) ;;
     tokens_used <- lift (openai_tokens response) ;;
     post (http_client wt)
          (callback_request wt trace_id content duration_ms tokens_used) ;;;
     ret tt)
    (fun e => print ("Observ callback error: " ++ exn_str e)).

Definition _send_callback_mistral (wt : Observ) (trace_id response : pyval)
           (duration_ms : Z) : M unit :=
  try_except
    (content <- lift (openai_content response) ;;
     tokens_used <- lift (openai_tokens response) ;;
     post (http_client wt)
          (callback_request wt trace_id content duration_ms tokens_used) ;;;
     ret tt)
    (fun e => print ("Observ callback error: " ++ exn_str e)).

(** [_send_callback_gemini], lines 154-169. *)
Definition gemini_content (response : pyval) : exc pyval :=
  (if hasattr response "text" then getattr response "text"
   else if hasattr response "candidates" then
     let? candidates := getattr response "candidates" in
     let? n := py_len candidates in
     if n >? 0 then
       let? candidate := index0 candidates in
       if hasattr candidate "content" then
         let? content := getattr candidate "content" in
         if hasattr content "parts" then
           let? parts := getattr content "parts" in
           let? k := py_len parts in
           if k >? 0 then
             let? part := index0 parts in getattr part "text"
           else Ok (PStr "")
         else Ok (PStr "")
       else Ok (PStr "")
     else Ok (PStr "")
   else Ok (PStr ""))%exc.

Definition gemini_tokens (response : pyval) : exc pyval :=
  (if hasattr response "usage_metadata" then
     let? usage := getattr response "usage_metadata" in
     if hasattr usage "total_token_count" then getattr usage "total_token_count"
     else if hasattr usage "prompt_token_count"
             && hasattr usage "candidates_token_count"
     then
       let? p := getattr usage "prompt_token_count" in
       let? c := getattr usage "candidates_token_count" in
       py_add p c
     else Ok (PInt 0)
   else Ok (PInt 0))%exc.

Definition _send_callback_gemini (wt : Observ) (trace_id response : pyval)
           (duration_ms : Z) : M unit :=
  try_except
    (content <- lift (gemini_content response) ;;
     tokens_used <- lift (gemini_tokens response) ;;
     post (http_client wt)
          (callback_request wt trace_id content duration_ms tokens_used) ;;;
     ret tt)
    (fun e => print ("Observ callback error: " ++ exn_str e)).

(* ================================================================== *)
(** ** The provider adapters *)

(** A callable taking [*args, **kwargs]. *)
Definition call_target : Type := list pyval -> list (string * pyval) -> M pyval.

(** Reading and assigning the instance attributes [self._metadata] and
    [self._session_id]. *)
Definition get_metadata : M pyval := fun w => (Ok (pending_metadata w), w).
Definition get_session_id : M pyval := fun w => (Ok (pending_session_id w), w).
Definition set_metadata (v : pyval) : M unit :=
  fun w => (Ok tt, mk_world (http_log w) (sdk_log w) (stdout w)
                            (clock w) (clock_reads w) v (pending_session_id w)).
Definition set_session_id (v : pyval) : M unit :=
  fun w => (Ok tt, mk_world (http_log w) (sdk_log w) (stdout w)
                            (clock w) (clock_reads w) (pending_metadata w) v).

(** [args[0] if args else d] and [args[1] if len(args) > 1 else d] *)
Definition arg0 (args : list pyval) (d : pyval) : pyval :=
  match args with a :: _ => a | [] => d end.
Definition arg1 (args : list pyval) (d : pyval) : pyval :=
  match args with _ :: b :: _ => b | _ => d end.

(** The POST to the decision endpoint, the same text in every adapter. *)
Definition decide_request (wt : Observ) (completion_request : pyval)
  : http_request :=
  mk_request (endpoint wt ++ "/api/v1/llm/complete")
             completion_request
             [("Authorization", "Bearer " ++ api_key wt);
              ("Content-Type", "application/json")]
             None.

(** [v == "cache_hit"] *)
Definition eq_str (v : pyval) (s : string) : bool :=
  match v with
  | PStr t => String.eqb t s
  | _ => false
  end.

Module AnthropicMessagesWrapper.

(** [_original_messages] is the messages resource the client had before
    it was wrapped; the field holds what its [create] does. *)
Record t : Type := mk {
  _original_messages : call_target;
  _wt : Observ
}.

Definition with_metadata (metadata : pyval) : M unit := set_metadata metadata.
Definition with_session_id (session_id : pyval) : M unit :=
  set_session_id session_id.

(** Lines 35-36. *)
Definition messages_of (args : list pyval) (kwargs : list (string * pyval))
  : pyval := dict_get kwargs "messages" (arg0 args (PList [])).
Definition model_of (args : list pyval) (kwargs : list (string * pyval))
  : pyval := dict_get kwargs "model" (arg1 args (PStr "claude-3-5-sonnet-20241022")).

(** Lines 62-74. *)
Definition cached_response (cached_content model : pyval) : pyval :=
  PObj ["Message"]
       [("content", PList [PObj ["TextBlock"]
                                [("text", cached_content);
                                 ("type", PStr "text")]]);
        ("role", PStr "assistant");
        ("model", model);
        ("stop_reason", PStr "end_turn");
        ("usage", PObj ["Usage"] [("input_tokens", PInt 0);
                                  ("output_tokens", PInt 0)])].

Definition create (self : t) : call_target := fun args kwargs =>
  metadata <- get_metadata ;;
  session_id <- get_session_id ;;
  set_metadata (PDict []) ;;;
  set_session_id PNone ;;;
  let messages := messages_of args kwargs in
  let model := model_of args kwargs in
  gateway_messages <- lift (convert_messages_to_gateway_format messages) ;;
  let completion_request :=
    build_completion_request "anthropic" model gateway_messages (_wt self)
                             metadata session_id in
  try_except
    (response <- post (http_client (_wt self))
                      (decide_request (_wt self) completion_request) ;;
     lift (raise_for_status response) ;;;
     gateway_response <- lift (response_json response) ;;
     action <- lift (method_get gateway_response "action" PNone) ;;
     if eq_str action "cache_hit" then
       cached_content <- lift (method_get gateway_response "content" (PStr "")) ;;
       ret (cached_response cached_content model)
     else
       trace_id <- lift (method_get gateway_response "trace_id" PNone) ;;
       start_time <- time_time ;;
       actual_response <- _original_messages self args kwargs ;;
       end_time <- time_time ;;
       duration_ms <- elapsed_ms start_time end_time ;;
       _send_callback (_wt self) trace_id actual_response duration_ms ;;;
       ret actual_response)
    (fun e =>
       print ("Observ gateway error: " ++ exn_str e) ;;;
       _original_messages self args kwargs).

End AnthropicMessagesWrapper.

Module MistralChatCompletionsWrapper.

Record t : Type := mk {
  _original_completions : call_target;
  _wt : Observ
}.

Definition with_metadata (metadata : pyval) : M unit := set_metadata metadata.
Definition with_session_id (session_id : pyval) : M unit :=
  set_session_id session_id.

(** Lines 34-35. *)
Definition messages_of (args : list pyval) (kwargs : list (string * pyval))
  : pyval := dict_get kwargs "messages" (arg0 args (PList [])).
Definition model_of (args : list pyval) (kwargs : list (string * pyval))
  : pyval := dict_get kwargs "model" (arg1 args (PStr "mistral-large-latest")).

(** Lines 57-71. *)
Definition cached_response (cached_content model : pyval) : pyval :=
  PObj ["ChatCompletionResponse"]
       [("choices", PList [PObj ["Choice"]
                                [("message",
                                  PObj ["Message"]
                                       [("role", PStr "assistant");
                                        ("content", cached_content)]);
                                 ("finish_reason", PStr "stop")]]);
        ("model", model);
        ("usage", PObj ["Usage"] [("prompt_tokens", PInt 0);
                                  ("completion_tokens", PInt 0);
                                  ("total_tokens", PInt 0)])].

Definition create (self : t) : call_target := fun args kwargs =>
  metadata <- get_metadata ;;
  session_id <- get_session_id ;;
  set_metadata (PDict []) ;;;
  set_session_id PNone ;;;
  let messages := messages_of args kwargs in
  let model := model_of args kwargs in
  gateway_messages <- lift (convert_messages_to_gateway_format messages) ;;
  let completion_request :=
    build_completion_request "mistral" model gateway_messages (_wt self)
                             metadata session_id in
  try_except
    (response <- post (http_client (_wt self))
                      (decide_request (_wt self) completion_request) ;;
     lift (raise_for_status response) ;;;
     gateway_response <- lift (response_json response) ;;
     action <- lift (method_get gateway_response "action" PNone) ;;
     if eq_str action "cache_hit" then
       cached_content <- lift (method_get gateway_response "content" (PStr "")) ;;
       ret (cached_response cached_content model)
     else
       trace_id <- lift (method_get gateway_response "trace_id" PNone) ;;
       start_time <- time_time ;;
       actual_response <- _original_completions self args kwargs ;;
       end_time <- time_time ;;
       duration_ms <- elapsed_ms start_time end_time ;;
       _send_callback_mistral (_wt self) trace_id actual_response duration_ms ;;;
       ret actual_response)
    (fun e =>
       print ("Observ gateway error: " ++ exn_str e) ;;;
       _original_completions self args kwargs).

End MistralChatCompletionsWrapper.

(** A [for] loop that appends one result per item and stops at the first
    exception. *)
Fixpoint exc_map {A B} (f : A -> exc B) (l : list A) : exc (list B) :=
  match l with
  | [] => Ok []
  | x :: r =>
      (let? y := f x in
       let? ys := exc_map f r in
       Ok (y :: ys))%exc
  end.

Module GeminiGenerateContentWrapper.

(** [_original_model] is the model object handed to the constructor. *)
Record t : Type := mk {
  _original_model : pyval;
  _wt : Observ
}.

Definition with_metadata (metadata : pyval) : M unit := set_metadata metadata.
Definition with_session_id (session_id : pyval) : M unit :=
  set_session_id session_id.

(** Line 35. *)
Definition prompt_of (args : list pyval) (kwargs : list (string * pyval))
  : pyval :=
  py_or (py_or (dict_get kwargs "prompt" PNone)
               (dict_get kwargs "contents" PNone))
        (arg0 args (PStr "")).

(** Line 36. *)
Definition model_of (self : t) : pyval :=
  getattr_default (_original_model self) "_model_name" (PStr "gemini-pro").

(** Lines 43-55: one item of a list prompt.  The default handed to
    [item.get("content", ...)] is an argument, so Python evaluates
    [str(item.get("parts", [""])[0])] before the lookup, whether or not
    the item has a content. *)
Definition convert_item (item : pyval) : exc pyval :=
  (match item with
   | PDict d =>
       let? first := index0 (dict_get d "parts" (PList [PStr ""])) in
       Ok (PDict [("role", dict_get d "role" (PStr "user"));
                  ("content", dict_get d "content" (PStr (py_str first)))])
   | _ =>
       if hasattr item "parts" then
         let? parts := getattr item "parts" in
         if truthy parts then
           let? part := index0 parts in
           let? text := getattr part "text" in
           Ok (PDict [("role", PStr "user"); ("content", text)])
         else Ok (PDict [("role", PStr "user"); ("content", PStr "")])
       else Ok (PDict [("role", PStr "user"); ("content", PStr (py_str item))])
   end)%exc.

(** Lines 39-57. *)
Definition gateway_messages_of (prompt : pyval) : exc pyval :=
  (match prompt with
   | PStr _ => Ok (PList [PDict [("role", PStr "user"); ("content", prompt)]])
   | PList items =>
       let? msgs := exc_map convert_item items in Ok (PList msgs)
   | _ =>
       Ok (PList [PDict [("role", PStr "user");
                         ("content", PStr (py_str prompt))]])
   end)%exc.

(** Lines 78-91. *)
Definition cached_response (cached_content : pyval) : pyval :=
  PObj ["GenerateContentResponse"]
       [("text", cached_content);
        ("candidates",
         PList [PObj ["Candidate"]
                     [("content",
                       PObj ["Content"]
                            [("parts", PList [PObj ["Part"]
                                                   [("text", cached_content)]]);
                             ("role", PStr "model")])]]);
        ("usage_metadata",
         PObj ["UsageMetadata"] [("prompt_token_count", PInt 0);
                                 ("candidates_token_count", PInt 0);
                                 ("total_token_count", PInt 0)])].

(** [bound m] is what the attribute access [m.generate_content] yields
    when the call is made. *)
Definition generate_content (bound : pyval -> call_target) (self : t)
  : call_target := fun args kwargs =>
  metadata <- get_metadata ;;
  session_id <- get_session_id ;;
  set_metadata (PDict []) ;;;
  set_session_id PNone ;;;
  let prompt := prompt_of args kwargs in
  let model := model_of self in
  gateway_messages <- lift (gateway_messages_of prompt) ;;
  let completion_request :=
    build_completion_request "gemini" model gateway_messages (_wt self)
                             metadata session_id in
  try_except
    (response <- post (http_client (_wt self))
                      (decide_request (_wt self) completion_request) ;;
     lift (raise_for_status response) ;;;
     gateway_response <- lift (response_json response) ;;
     action <- lift (method_get gateway_response "action" PNone) ;;
     if eq_str action "cache_hit" then
       cached_content <- lift (method_get gateway_response "content" (PStr "")) ;;
       ret (cached_response cached_content)
     else
       trace_id <- lift (method_get gateway_response "trace_id" PNone) ;;
       start_time <- time_time ;;
       actual_response <- bound (_original_model self) args kwargs ;;
       end_time <- time_time ;;
       duration_ms <- elapsed_ms start_time end_time ;;
       _send_callback_gemini (_wt self) trace_id actual_response duration_ms ;;;
       ret actual_response)
    (fun e =>
       print ("Observ gateway error: " ++ exn_str e) ;;;
       bound (_original_model self) args kwargs).

End GeminiGenerateContentWrapper.

(* ================================================================== *)
(** ** watchtower/__init__.py: the wrap entry points *)

Module ObservWrap.

(** [import pkg] inside a function body. *)
Definition import (installed : string -> bool) (pkg : string) : exc unit :=
  if installed pkg then Ok tt
  else Raise (ImportError ("No module named '" ++ pkg ++ "'")).

(** [try: body except ImportError: raise ImportError(msg)] followed by
    [raise TypeError(expected)]: the body returns [Some client] when it
    reaches its [return], [None] when it falls out of the [if]. *)
Definition guarded (body : exc (option pyval)) (msg expected : string)
  : exc pyval :=
  match body with
  | Ok (Some client) => Ok client
  | Ok None => Raise (TypeError expected)
  | Raise (ImportError _) => Raise (ImportError msg)
  | Raise e => Raise e
  end.

(** Lines 4-5: the module imports [httpx] and [anthropic] when it is
    loaded, so the session class exists only where both are installed. *)
Definition load (installed : string -> bool) : exc unit :=
  (let? _ := import installed "httpx" in
   import installed "anthropic")%exc.

(** A fresh instance of [AnthropicMessagesWrapper] or of
    [MistralChatCompletionsWrapper], as its [__init__] leaves it
    (anthropic.py and mistral.py, lines 11-15). *)
Definition new_wrapper (cls field : string) (original : pyval) (wt : Observ)
  : pyval :=
  PObj [cls]
       [(field, original);
        ("_wt", PObj ["Observ"] [("api_key", PStr (api_key wt));
                                 ("project_id", PStr (project_id wt));
                                 ("recall", PBool (recall wt));
                                 ("environment", PStr (environment wt));
                                 ("endpoint", PStr (endpoint wt))]);
        ("_metadata", PDict []);
        ("_session_id", PNone)].

(** The constructor of an adapter class, applied to the call surface it
    wraps and to the session. *)
Definition constructor : Type := pyval -> Observ -> pyval.

(** [client.chat.completions = wrapper(client.chat.completions, self)] *)
Definition wrap_chat_completions (wrapper : constructor) (wt : Observ)
           (client : pyval) : exc pyval :=
  (let? chat := getattr client "chat" in
   let? completions := getattr chat "completions" in
   let? chat' := setattr chat "completions" (wrapper completions wt) in
   setattr client "chat" chat')%exc.

(** Lines 28-31: no import inside the body, no [isinstance] test. *)
Definition anthropic (wt : Observ) (installed : string -> bool)
           (client : pyval) : exc pyval :=
  (let? messages := getattr client "messages" in
   setattr client "messages"
           (new_wrapper "AnthropicMessagesWrapper" "_original_messages"
                        messages wt))%exc.

(** Lines 33-42.  [OpenAIChatCompletionsWrapper] is the class of
    providers/openai.py, a module that is not embedded here: its constructor
    is a parameter. *)
Definition openai (OpenAIChatCompletionsWrapper : constructor)
           (wt : Observ) (installed : string -> bool)
           (client : pyval) : exc pyval :=
  guarded
    (let? _ := import installed "openai" in
     if isinstance client "openai.OpenAI" then
       let? c := wrap_chat_completions OpenAIChatCompletionsWrapper wt client in
       Ok (Some c)
     else Ok None)%exc
    "openai package is required. Install with: pip install openai"
    "Expected openai.OpenAI client".

(** Lines 44-58.  The adapter is built around [model] itself, and its
    bound methods are then stored on that same object. *)
Definition gemini (wt : Observ) (installed : string -> bool)
           (model : pyval) : exc pyval :=
  guarded
    (let? _ := import installed "google.generativeai" in
     if isinstance model "google.generativeai.GenerativeModel" then
       let? m1 := setattr model "generate_content"
                    (PMethod "GeminiGenerateContentWrapper" "generate_content") in
       let? m2 := setattr m1 "with_metadata"
                    (PMethod "GeminiGenerateContentWrapper" "with_metadata") in
       let? m3 := setattr m2 "with_session_id"
                    (PMethod "GeminiGenerateContentWrapper" "with_session_id") in
       Ok (Some m3)
     else Ok None)%exc
    "google-generativeai package is required. Install with: pip install google-generativeai"
    "Expected google.generativeai.GenerativeModel".

(** Lines 60-69.  [XAIChatCompletionsWrapper] is the class of
    providers/xai.py, a module that is not embedded here: its constructor
    is a parameter. *)
Definition xai (XAIChatCompletionsWrapper : constructor)
           (wt : Observ) (installed : string -> bool)
           (client : pyval) : exc pyval :=
  guarded
    (let? _ := import installed "openai" in
     if isinstance client "openai.OpenAI" then
       let? c := wrap_chat_completions XAIChatCompletionsWrapper wt client in
       Ok (Some c)
     else Ok None)%exc
    "openai package is required. Install with: pip install openai"
    "Expected openai.OpenAI client configured for xAI".

(** Lines 71-80. *)
Definition mistral (wt : Observ) (installed : string -> bool)
           (client : pyval) : exc pyval :=
  guarded
    (let? _ := import installed "mistralai" in
     if isinstance client "mistralai.Mistral" then
       let? c := wrap_chat_completions
                   (new_wrapper "MistralChatCompletionsWrapper"
                                "_original_completions") wt client in
       Ok (Some c)
     else Ok None)%exc
    "mistralai package is required. Install with: pip install mistralai"
    "Expected mistralai.Mistral client".

(** Lines 82-91.  [OpenRouterChatCompletionsWrapper] is the class of
    providers/openrouter.py, a module that is not embedded here: its constructor
    is a parameter. *)
Definition openrouter (OpenRouterChatCompletionsWrapper : constructor)
           (wt : Observ) (installed : string -> bool)
           (client : pyval) : exc pyval :=
  guarded
    (let? _ := import installed "openai" in
     if isinstance client "openai.OpenAI" then
       let? c := wrap_chat_completions OpenRouterChatCompletionsWrapper wt client in
       Ok (Some c)
     else Ok None)%exc
    "openai package is required. Install with: pip install openai"
    "Expected openai.OpenAI client configured for OpenRouter".

End ObservWrap.

(* ================================================================== *)
(** ** Calling through a wrapped client *)

(** [model.generate_content] on a model object.  Python looks in the
    instance first: after [ObservWrap.gemini] the instance attribute
    [generate_content] is the adapter's bound method, and the adapter was
    built around this very object, so its [_original_model] is [model]
    again.  Without such an attribute the lookup reaches the class and
    yields the SDK's method.  [depth] is the number of frames left before
    the interpreter raises [RecursionError]. *)
Fixpoint model_generate_content (sdk : provider_sdk) (wt : Observ)
         (depth : nat) (model : pyval) : call_target :=
  match model with
  | PObj _ attrs =>
      match assoc "generate_content" attrs with
      | None => sdk_invoke sdk
      | Some (PMethod owner name) =>
          if String.eqb owner "GeminiGenerateContentWrapper"
             && String.eqb name "generate_content"
          then
            match depth with
            | O => fun _ _ => raise RecursionError
            | S d =>
                GeminiGenerateContentWrapper.generate_content
                  (model_generate_content sdk wt d)
                  (GeminiGenerateContentWrapper.mk model wt)
            end
          else fun _ _ => raise (TypeError "object is not callable")
      | Some _ => fun _ _ => raise (TypeError "object is not callable")
      end
  | _ => fun _ _ => raise (AttributeError "generate_content")
  end.

Inductive provider : Type := Anthropic | Mistral | Gemini.

(** The intercepted call of the adapter of provider [p] whose reference to
    the wrapped call target resolves to [original].  [model] is the object
    the Gemini adapter keeps; the other two keep nothing else. *)
Definition intercepted_call (p : provider) (original : call_target)
           (wt : Observ) (model : pyval) : call_target :=
  match p with
  | Anthropic =>
      AnthropicMessagesWrapper.create (AnthropicMessagesWrapper.mk original wt)
  | Mistral =>
      MistralChatCompletionsWrapper.create
        (MistralChatCompletionsWrapper.mk original wt)
  | Gemini =>
      GeminiGenerateContentWrapper.generate_content
        (fun _ => original) (GeminiGenerateContentWrapper.mk model wt)
  end.

(** The normalizer of each adapter, applied to the call's arguments. *)
Definition gateway_messages (p : provider) (args : list pyval)
           (kwargs : list (string * pyval)) : exc pyval :=
  match p with
  | Anthropic =>
      convert_messages_to_gateway_format
        (AnthropicMessagesWrapper.messages_of args kwargs)
  | Mistral =>
      convert_messages_to_gateway_format
        (MistralChatCompletionsWrapper.messages_of args kwargs)
  | Gemini =>
      GeminiGenerateContentWrapper.gateway_messages_of
        (GeminiGenerateContentWrapper.prompt_of args kwargs)
  end.

(** The canonical content path of each provider's response:
    [response.content[0].text], [response.choices[0].message.content],
    [response.text]. *)
Definition content_path (p : provider) (response : pyval) : exc pyval :=
  (match p with
   | Anthropic =>
       let? c := getattr response "content" in
       let? b := index0 c in
       getattr b "text"
   | Mistral =>
       let? c := getattr response "choices" in
       let? ch := index0 c in
       let? m := getattr ch "message" in
       getattr m "content"
   | Gemini => getattr response "text"
   end)%exc.

(** The usage object of each provider's response. *)
Definition usage_path (p : provider) (response : pyval) : exc pyval :=
  match p with
  | Anthropic | Mistral => getattr response "usage"
  | Gemini => getattr response "usage_metadata"
  end.

Definition all_fields_zero (usage : pyval) : Prop :=
  match usage with
  | PObj _ attrs => attrs <> [] /\ Forall (fun kv => snd kv = PInt 0) attrs
  | _ => False
  end.

(** [d[k]] when [v] is a dict holding [k]. *)
Definition dict_field (v : pyval) (k : string) : option pyval :=
  match v with
  | PDict d => assoc k d
  | _ => None
  end.

Definition decide_url (wt : Observ) : string := endpoint wt ++ "/api/v1/llm/complete".
Definition callback_url (wt : Observ) : string := endpoint wt ++ "/api/v1/llm/callback".

(** The request envelopes among the logged POSTs. *)
Definition envelopes (wt : Observ) (log : list http_request) : list pyval :=
  map json (filter (fun rq => String.eqb (url rq) (decide_url wt)) log).

(** The gateway's answer to the next decision request. *)
Definition decides (wt : Observ) (w : world) (o : http_outcome) : Prop :=
  forall rq, url rq = decide_url wt -> http_client wt (http_log w) rq = o.

Definition success (status : Z) : Prop := 200 <= status < 300.

(* ================================================================== *)
(** ** The shape the three adapters share *)

(** The three intercepted calls have the same text up to the provider
    name, the model, the normalizer, the synthesized response and the
    reporter.  [adapter_call] is that common text; [intercepted_call_shape]
    below shows that each adapter is an instance of it. *)
Definition provider_name (p : provider) : string :=
  match p with
  | Anthropic => "anthropic"
  | Mistral => "mistral"
  | Gemini => "gemini"
  end.

Definition model_arg (p : provider) (wt : Observ) (model : pyval)
           (args : list pyval) (kwargs : list (string * pyval)) : pyval :=
  match p with
  | Anthropic => AnthropicMessagesWrapper.model_of args kwargs
  | Mistral => MistralChatCompletionsWrapper.model_of args kwargs
  | Gemini =>
      GeminiGenerateContentWrapper.model_of
        (GeminiGenerateContentWrapper.mk model wt)
  end.

Definition synthesized (p : provider) (model_name cached_content : pyval)
  : pyval :=
  match p with
  | Anthropic => AnthropicMessagesWrapper.cached_response cached_content model_name
  | Mistral => MistralChatCompletionsWrapper.cached_response cached_content model_name
  | Gemini => GeminiGenerateContentWrapper.cached_response cached_content
  end.

Definition reporter (p : provider)
  : Observ -> pyval -> pyval -> Z -> M unit :=
  match p with
  | Anthropic => _send_callback
  | Mistral => _send_callback_mistral
  | Gemini => _send_callback_gemini
  end.

Definition reported_content (p : provider) : pyval -> exc pyval :=
  match p with
  | Anthropic => anthropic_content
  | Mistral => openai_content
  | Gemini => gemini_content
  end.

Definition reported_tokens (p : provider) : pyval -> exc pyval :=
  match p with
  | Anthropic => anthropic_tokens
  | Mistral => openai_tokens
  | Gemini => gemini_tokens
  end.

(** The [try] block and its handler. *)
Definition through_gateway (wt : Observ) (completion_request : pyval)
           (synth : pyval -> pyval)
           (report : Observ -> pyval -> pyval -> Z -> M unit)
           (original : M pyval) : M pyval :=
  try_except
    (response <- post (http_client wt) (decide_request wt completion_request) ;;
     lift (raise_for_status response) ;;;
     gateway_response <- lift (response_json response) ;;
     action <- lift (method_get gateway_response "action" PNone) ;;
     if eq_str action "cache_hit" then
       cached_content <- lift (method_get gateway_response "content" (PStr "")) ;;
       ret (synth cached_content)
     else
       trace_id <- lift (method_get gateway_response "trace_id" PNone) ;;
       start_time <- time_time ;;
       actual_response <- original ;;
       end_time <- time_time ;;
       duration_ms <- elapsed_ms start_time end_time ;;
       report wt trace_id actual_response duration_ms ;;;
       ret actual_response)
    (fun e =>
       print ("Observ gateway error: " ++ exn_str e) ;;;
       original).

(** The envelope of a call, from the chained state it consumed and the
    normalized messages. *)
Definition envelope (p : provider) (wt : Observ) (model : pyval)
           (args : list pyval) (kwargs : list (string * pyval))
           (metadata session_id gateway_messages : pyval) : pyval :=
  build_completion_request (provider_name p) (model_arg p wt model args kwargs)
                           gateway_messages wt metadata session_id.

Definition adapter_call (p : provider) (original : call_target)
           (wt : Observ) (model : pyval) : call_target := fun args kwargs =>
  metadata <- get_metadata ;;
  session_id <- get_session_id ;;
  set_metadata (PDict []) ;;;
  set_session_id PNone ;;;
  msgs <- lift (gateway_messages p args kwargs) ;;
  through_gateway wt (envelope p wt model args kwargs metadata session_id msgs)
                  (synthesized p (model_arg p wt model args kwargs))
                  (reporter p) (original args kwargs).

(** The adapter instance's chained state, emptied. *)
Definition consumed (w : world) : world :=
  mk_world (http_log w) (sdk_log w) (stdout w) (clock w) (clock_reads w)
           (PDict []) PNone.

(** What can go wrong in a reporter: reading the content, reading the
    tokens, or the POST itself.  A response with an error status is no
    failure: the reporter does not look at the response. *)
Inductive callback_failure (wt : Observ) (w : world)
          (content tokens : exc pyval) (rq : pyval -> pyval -> http_request)
  : exn -> Prop :=
| content_unreadable e :
    content = Raise e ->
    callback_failure wt w content tokens rq e
| tokens_unreadable c e :
    content = Ok c -> tokens = Raise e ->
    callback_failure wt w content tokens rq e
| post_failed c t msg :
    content = Ok c -> tokens = Ok t ->
    http_client wt (http_log w) (rq c t) = NetworkFailure msg ->
    callback_failure wt w content tokens rq (TransportError msg).

(** A reporter's outcome, given the two extractions and the request it
    builds from them: it returns normally; a failure leaves exactly one
    more line on the console, naming that failure; without a failure the
    console is as before; the provider is not called. *)
Definition caught_and_logged (wt : Observ) (content tokens : exc pyval)
           (rq : pyval -> pyval -> http_request)
           (out : exc unit * world) (w : world) : Prop :=
  fst out = Ok tt
  /\ (forall e,
         callback_failure wt w content tokens rq e ->
         stdout (snd out)
         = (stdout w ++ [("Observ callback error: " ++ exn_str e)%string])%list)
  /\ ((forall e, ~ callback_failure wt w content tokens rq e) ->
      stdout (snd out) = stdout w)
  /\ sdk_log (snd out) = sdk_log w.

(** The adapter instance with [metadata] and [session_id] chained. *)
Definition with_pending (metadata session_id : pyval) (w : world) : world :=
  mk_world (http_log w) (sdk_log w) (stdout w) (clock w) (clock_reads w)
           metadata session_id.

(** The gateway decision is a JSON object that does not say [cache_hit]. *)
Definition pass_through (d : list (string * pyval)) : Prop :=
  eq_str (dict_get d "action" PNone) "cache_hit" = false.

(** The ways the decision round trip can fail: the transport raises, the
    status is not 2xx, the body is not JSON, the JSON is not an object. *)
Inductive gateway_failure : http_outcome -> exn -> Prop :=
| network_failure msg :
    gateway_failure (NetworkFailure msg) (TransportError msg)
| bad_status status body :
    ~ success status ->
    gateway_failure (Response status body) (HTTPStatusError status)
| malformed_json status :
    success status ->
    gateway_failure (Response status None) JSONDecodeError
| not_an_object status v :
    success status ->
    is_dict v = false ->
    gateway_failure (Response status (Some v)) (AttributeError "get").

(** Chaining on the adapter of provider [p], then the intercepted call. *)
Definition chain_metadata (p : provider) : pyval -> M unit :=
  match p with
  | Anthropic => AnthropicMessagesWrapper.with_metadata
  | Mistral => MistralChatCompletionsWrapper.with_metadata
  | Gemini => GeminiGenerateContentWrapper.with_metadata
  end.

Definition chain_session_id (p : provider) : pyval -> M unit :=
  match p with
  | Anthropic => AnthropicMessagesWrapper.with_session_id
  | Mistral => MistralChatCompletionsWrapper.with_session_id
  | Gemini => GeminiGenerateContentWrapper.with_session_id
  end.

Definition chained_call (p : provider) (original : call_target) (wt : Observ)
           (model metadata session_id : pyval) : call_target :=
  fun args kwargs =>
    chain_metadata p metadata ;;;
    chain_session_id p session_id ;;;
    intercepted_call p original wt model args kwargs.

(* ================================================================== *)
(** ** The wrap entry points as a family *)

Inductive entry_point : Type :=
| WrapAnthropic | WrapOpenAI | WrapGemini | WrapXAI | WrapMistral | WrapOpenRouter.

(** The constructors of the three adapter classes that the module imports
    from provider modules that are not embedded here. *)
Record imported_adapters : Type := mk_imported {
  OpenAIChatCompletionsWrapper : ObservWrap.constructor;
  XAIChatCompletionsWrapper : ObservWrap.constructor;
  OpenRouterChatCompletionsWrapper : ObservWrap.constructor
}.

Definition wrap (A : imported_adapters) (e : entry_point)
  : Observ -> (string -> bool) -> pyval -> exc pyval :=
  match e with
  | WrapAnthropic => ObservWrap.anthropic
  | WrapOpenAI => ObservWrap.openai (OpenAIChatCompletionsWrapper A)
  | WrapGemini => ObservWrap.gemini
  | WrapXAI => ObservWrap.xai (XAIChatCompletionsWrapper A)
  | WrapMistral => ObservWrap.mistral
  | WrapOpenRouter => ObservWrap.openrouter (OpenRouterChatCompletionsWrapper A)
  end.

(** The provider package of each entry point and the client type it is
    meant for. *)
Definition package (e : entry_point) : string :=
  match e with
  | WrapAnthropic => "anthropic"
  | WrapGemini => "google.generativeai"
  | WrapMistral => "mistralai"
  | WrapOpenAI | WrapXAI | WrapOpenRouter => "openai"
  end.

Definition client_type (e : entry_point) : string :=
  match e with
  | WrapAnthropic => "anthropic.Anthropic"
  | WrapGemini => "google.generativeai.GenerativeModel"
  | WrapMistral => "mistralai.Mistral"
  | WrapOpenAI | WrapXAI | WrapOpenRouter => "openai.OpenAI"
  end.

Definition raises_import_error {A} (r : exc A) : Prop :=
  match r with Raise (ImportError _) => True | _ => False end.
Definition raises_type_error {A} (r : exc A) : Prop :=
  match r with Raise (TypeError _) => True | _ => False end.

(** What the specification asks of a wrap entry point. *)
Definition checks_package_and_type (A : imported_adapters) (e : entry_point)
  : Prop :=
  forall wt installed client,
    (installed (package e) = false ->
     raises_import_error (wrap A e wt installed client))
    /\ (installed (package e) = true ->
        isinstance client (client_type e) = false ->
        raises_type_error (wrap A e wt installed client)).

(** ** Stubs used in the examples *)

Definition refused : transport := fun _ _ => NetworkFailure "connection refused".
Definition answers (status : Z) (body : pyval) : transport :=
  fun _ _ => Response status (Some body).

Definition session (http : transport) : Observ :=
  mk_Observ "key" "default" false "production" "http://localhost:8080" http.

(** A clock that advances by 250 ms with every provider call and by 1 ms
    with every request and every reading, its tokens counting
    milliseconds. *)
Definition stub_clock : host_clock :=
  mk_clock (fun http sdk n =>
              Float (Z.of_nat (List.length http) + 250 * Z.of_nat (List.length sdk)
                     + Z.of_nat n))
           (fun earlier later =>
              match earlier, later with Float a, Float b => b - a end).

Definition fresh_world : world :=
  mk_world [] [] [] stub_clock 0 (PDict []) PNone.

(** A provider that always succeeds, numbering its answers. *)
Definition stub_provider : provider_sdk :=
  fun log _ => Ok (PObj ["Completion"] [("id", PInt (Z.of_nat (List.length log)))]).

(** A provider whose first call fails and whose later calls succeed. *)
Definition flaky_provider : provider_sdk :=
  fun log _ =>
    match log with
    | [] => Raise (ProviderError "overloaded")
    | _ => Ok (PObj ["Completion"] [("id", PInt (Z.of_nat (List.length log)))])
    end.

Definition all_installed : string -> bool := fun _ => true.
Definition none_installed : string -> bool := fun _ => false.

Definition genai_model : pyval :=
  PObj ["google.generativeai.GenerativeModel"]
       [("_model_name", PStr "models/gemini-pro")].

(** [genai_model] after [ObservWrap.gemini]. *)
Definition wrapped_genai_model : pyval :=
  PObj ["google.generativeai.GenerativeModel"]
       [("_model_name", PStr "models/gemini-pro");
        ("generate_content",
         PMethod "GeminiGenerateContentWrapper" "generate_content");
        ("with_metadata", PMethod "GeminiGenerateContentWrapper" "with_metadata");
        ("with_session_id",
         PMethod "GeminiGenerateContentWrapper" "with_session_id")].

(** Gateway decisions. *)
Definition proceed : pyval :=
  PDict [("action", PStr "proceed"); ("trace_id", PStr "trace-1")].
Definition cache_hit (content : string) : pyval :=
  PDict [("action", PStr "cache_hit"); ("content", PStr content)].

(** OpenAI-shaped responses: one with an explicit total, one with the two
    parts only, one without usage. *)
Definition openai_message (content : pyval) : pyval :=
  PList [PObj ["Choice"] [("message", PObj ["ChatCompletionMessage"]
                                           [("role", PStr "assistant");
                                            ("content", content)])]].
Definition response_total_42 : pyval :=
  PObj ["ChatCompletion"]
       [("choices", openai_message (PStr "hello"));
        ("usage", PObj ["CompletionUsage"] [("total_tokens", PInt 42)])].
Definition response_10_and_5 : pyval :=
  PObj ["ChatCompletion"]
       [("choices", openai_message PNone);
        ("usage", PObj ["CompletionUsage"] [("prompt_tokens", PInt 10);
                                            ("completion_tokens", PInt 5)])].
Definition response_without_usage : pyval :=
  PObj ["ChatCompletion"] [("choices", PList [])].

Definition hello : list (string * pyval) :=
  [("messages", PList [PDict [("role", PStr "user"); ("content", PStr "hi")]])].

(* ================================================================== *)
(** ** Shapes of messages and envelopes *)

(** The message the normalizers produce when an item gives neither a role
    nor a content. *)
Definition empty_user_message : pyval :=
  PDict [("role", PStr "user"); ("content", PStr "")].

(** A canonical message: a dict with a role and a content, in that order,
    and nothing else. *)
Definition is_gateway_message (m : pyval) : Prop :=
  exists role content, m = PDict [("role", role); ("content", content)].

(** The keys every envelope has, in the order the builder writes them. *)
Definition envelope_keys : list string :=
  ["provider"; "model"; "messages"; "features"; "environment"; "metadata"].

(** ** Items of a Gemini list prompt *)

(** A value that has a first element: a non-empty list or string. *)
Definition has_first (v : pyval) : bool :=
  match v with
  | PList (_ :: _) => true
  | PStr (String _ _) => true
  | _ => false
  end.

(** The items the Gemini normalizer can handle.  A dict needs no parts at
    all or parts with a first element.  An object needs no parts attribute,
    or parts that are falsy, or a list of parts whose first one has a
    text.  Anything else is converted with [str]. *)
Definition item_ok (item : pyval) : bool :=
  match item with
  | PDict d =>
      match assoc "parts" d with
      | None => true
      | Some parts => has_first parts
      end
  | PObj _ attrs =>
      match assoc "parts" attrs with
      | None => true
      | Some parts =>
          if truthy parts then
            match parts with
            | PList (part :: _) => hasattr part "text"
            | _ => false
            end
          else true
      end
  | _ => true
  end.

(** ** What a reporter may post *)

(** The log after a reporter ran: unchanged, or one more request, to the
    callback endpoint, without headers, with a timeout of 5 seconds, whose
    body has the four payload keys and carries the given trace id and
    duration. *)
Definition posts_at_most_one_callback (wt : Observ) (trace_id : pyval)
           (duration_ms : Z) (out : exc unit * world) (w : world) : Prop :=
  http_log (snd out) = http_log w
  \/ exists content tokens,
      http_log (snd out)
      = (http_log w
           ++ [mk_request (callback_url wt)
                          (PDict [("trace_id", trace_id);
                                  ("content", content);
                                  ("duration_ms", PInt duration_ms);
                                  ("tokens_used", tokens)])
                          [] (Some 5)])%list.

(** ** Wrapped clients *)

(** The constructor each entry point applies to [client.chat.completions];
    the Anthropic and Gemini entry points replace another attribute. *)
Definition chat_adapter (A : imported_adapters) (e : entry_point)
  : option ObservWrap.constructor :=
  match e with
  | WrapOpenAI => Some (OpenAIChatCompletionsWrapper A)
  | WrapXAI => Some (XAIChatCompletionsWrapper A)
  | WrapOpenRouter => Some (OpenRouterChatCompletionsWrapper A)
  | WrapMistral =>
      Some (ObservWrap.new_wrapper "MistralChatCompletionsWrapper"
                                   "_original_completions")
  | WrapAnthropic | WrapGemini => None
  end.

(** A model object whose instance attribute [generate_content] is the
    Gemini adapter's bound method. *)
Definition gemini_patched (m : pyval) : Prop :=
  match m with
  | PObj _ attrs =>
      assoc "generate_content" attrs
      = Some (PMethod "GeminiGenerateContentWrapper" "generate_content")
  | _ => False
  end.

(** The names [ObservWrap.gemini] assigns on the model. *)
Definition gemini_patched_names : list string :=
  ["generate_content"; "with_metadata"; "with_session_id"].

(** ** Further stubs *)

(** An Anthropic response whose first content block is a tool call: the
    block has no [text]. *)
Definition tool_use_response : pyval :=
  PObj ["Message"]
       [("content", PList [PObj ["ToolUseBlock"] [("type", PStr "tool_use");
                                                  ("name", PStr "lookup")]]);
        ("usage", PObj ["Usage"] [("input_tokens", PInt 3);
                                  ("output_tokens", PInt 4)])].

(** An OpenAI-shaped response whose first choice has no message. *)
Definition response_without_message : pyval :=
  PObj ["ChatCompletion"] [("choices", PList [PObj ["Choice"] [("index", PInt 0)]])].

(** Usage objects that give one part only, and a Gemini response with
    candidates but no [text]. *)
Definition response_input_only : pyval :=
  PObj ["Message"] [("content", PList []);
                    ("usage", PObj ["Usage"] [("input_tokens", PInt 12)])].
Definition response_prompt_only : pyval :=
  PObj ["ChatCompletionResponse"]
       [("choices", openai_message PNone);
        ("usage", PObj ["UsageInfo"] [("prompt_tokens", PInt 12)])].
Definition gemini_candidates_response : pyval :=
  PObj ["GenerateContentResponse"]
       [("candidates",
         PList [PObj ["Candidate"]
                     [("content",
                       PObj ["Content"]
                            [("parts", PList [PObj ["Part"] [("text", PStr "hi")]])])]]);
        ("usage_metadata",
         PObj ["UsageMetadata"] [("prompt_token_count", PInt 2);
                                 ("candidates_token_count", PInt 3)])].

(** A Mistral client as the SDK builds it, reduced to what matters here. *)
Definition mistral_client : pyval :=
  PObj ["mistralai.Mistral"]
       [("api_key", PStr "sk");
        ("chat", PObj ["Chat"] [("completions", PObj ["Completions"] []);
                                ("stream", PMethod "Chat" "stream")]);
        ("embeddings", PObj ["Embeddings"] [])].

(** An asynchronous Anthropic client: it has a [messages] resource and is
    no [anthropic.Anthropic]. *)
Definition async_anthropic_client : pyval :=
  PObj ["anthropic.AsyncAnthropic"]
       [("api_key", PStr "sk"); ("messages", PObj ["AsyncMessages"] [])].

(** Adapter constructors standing for the three imported classes, used
    where an example needs some. *)
Definition stub_adapters : imported_adapters :=
  mk_imported (fun completions _ => PObj ["OpenAIChatCompletionsWrapper"] [])
              (fun completions _ => PObj ["XAIChatCompletionsWrapper"] [])
              (fun completions _ => PObj ["OpenRouterChatCompletionsWrapper"] []).

(** A provider that always answers with a given response. *)
Definition provider_answering (r : pyval) : provider_sdk := fun _ _ => Ok r.

(** An Anthropic text response. *)
Definition text_response : pyval :=
  PObj ["Message"]
       [("content", PList [PObj ["TextBlock"] [("text", PStr "hello");
                                               ("type", PStr "text")]]);
        ("usage", PObj ["Usage"] [("input_tokens", PInt 3);
                                  ("output_tokens", PInt 4)])].

(* ================================================================== *)
(** * Properties *)

(** Unfolds the monad and the primitive effects. *)
Ltac run :=
  cbv beta iota delta
      [bind ret raise lift try_except print time_time elapsed_ms post sdk_invoke
       get_metadata get_session_id set_metadata set_session_id exc_bind];
  cbn [fst snd http_log sdk_log stdout clock clock_reads
       pending_metadata pending_session_id].

(** Projects the fields of a world built by the effects. *)
Ltac fields :=
  unfold sdk_invoke;
  cbn [fst snd http_log sdk_log stdout clock clock_reads
       pending_metadata pending_session_id
       log_call log_line log_post tick consumed with_pending].

(** ** The request builder *)

Lemma build_completion_request_is_dict provider model msgs wt md sid :
  exists d, build_completion_request provider model msgs wt md sid = PDict d.
Proof. unfold build_completion_request. eexists. reflexivity. Qed.

Lemma build_completion_request_metadata provider model msgs wt md sid :
  dict_field (build_completion_request provider model msgs wt md sid) "metadata"
  = Some md.
Proof.
  unfold build_completion_request. destruct (truthy sid); reflexivity.
Qed.

Lemma build_completion_request_session provider model msgs wt md sid :
  dict_field (build_completion_request provider model msgs wt md sid)
             "external_session_id"
  = if truthy sid then Some sid else None.
Proof.
  unfold build_completion_request. destruct (truthy sid); reflexivity.
Qed.

(** C7: every envelope the request builder produces has [features.trace]
    true, [features.resilience] and [features.adapt] false, and takes
    [features.recall] and [environment] from the session object, whatever
    the provider, model, messages, metadata and session id. *)
Theorem C7_features_invariant :
  forall provider model gateway_messages wt metadata session_id,
    let request := build_completion_request provider model gateway_messages
                                            wt metadata session_id in
    exists features,
      dict_field request "features" = Some features
      /\ dict_field features "trace" = Some (PBool true)
      /\ dict_field features "resilience" = Some (PBool false)
      /\ dict_field features "adapt" = Some (PBool false)
      /\ dict_field features "recall" = Some (PBool (recall wt))
      /\ dict_field request "environment" = Some (PStr (environment wt)).
Proof.
  intros. subst request. unfold build_completion_request.
  eexists. destruct (truthy session_id); cbn; repeat split; reflexivity.
Qed.

(** ** The callback reporters *)

Lemma reporter_never_raises (wt : Observ) (content tokens : exc pyval)
      (rq : pyval -> pyval -> http_request) (w : world) :
  caught_and_logged wt content tokens rq
    (try_except
       (c <- lift content ;;
        t <- lift tokens ;;
        post (http_client wt) (rq c t) ;;;
        ret tt)
       (fun e => print ("Observ callback error: " ++ exn_str e)) w)
    w.
Proof.
  unfold caught_and_logged. run.
  destruct content as [c|e].
  2:{ split; [reflexivity|]. split; [|split; [|reflexivity]].
      - intros e' H. inversion H; subst; try discriminate.
        match goal with H0 : Raise _ = Raise _ |- _ => injection H0 as <- end.
        reflexivity.
      - intros H. exfalso. apply (H e). apply content_unreadable. reflexivity. }
  destruct tokens as [t|e].
  2:{ split; [reflexivity|]. split; [|split; [|reflexivity]].
      - intros e' H. inversion H; subst; try discriminate.
        match goal with H0 : Raise _ = Raise _ |- _ => injection H0 as <- end.
        reflexivity.
      - intros H. exfalso. apply (H e).
        apply (tokens_unreadable _ _ _ _ _ c); reflexivity. }
  destruct (http_client wt (http_log w) (rq c t)) as [msg | status body] eqn:Hpost.
  - split; [reflexivity|]. split; [|split; [|reflexivity]].
    + intros e' H. inversion H; subst; try discriminate.
      repeat match goal with
             | H0 : Ok _ = Ok _ |- _ => injection H0 as <-
             end.
      match goal with
      | H0 : http_client _ _ _ = NetworkFailure _ |- _ =>
          rewrite Hpost in H0; injection H0 as <-
      end.
      reflexivity.
    + intros H. exfalso. apply (H (TransportError msg)).
      apply (post_failed _ _ _ _ _ c t); [reflexivity | reflexivity | exact Hpost].
  - split; [reflexivity|]. split; [|split; [|reflexivity]].
    + intros e' H. exfalso. inversion H; subst; try discriminate.
      repeat match goal with
             | H0 : Ok _ = Ok _ |- _ => injection H0 as <-
             end.
      match goal with
      | H0 : http_client _ _ _ = NetworkFailure _ |- _ =>
          rewrite Hpost in H0; discriminate H0
      end.
    + intros _. reflexivity.
Qed.

(** C8: no callback reporter raises to its caller, whatever the response
    object, the trace id, the duration and the state of the transport.  A
    failure while reading the content or the tokens, or while posting, is
    caught and logged: it leaves one line on the console, naming the
    failure, and nothing reaches the caller; when nothing fails the console
    is untouched. *)
Theorem C8_callback_reporters_never_raise :
  forall wt trace_id response duration_ms w,
    let rq := fun c t => callback_request wt trace_id c duration_ms t in
    caught_and_logged wt (anthropic_content response) (anthropic_tokens response)
                      rq (_send_callback wt trace_id response duration_ms w) w
    /\ caught_and_logged wt (openai_content response) (openai_tokens response)
                         rq (_send_callback_openai wt trace_id response duration_ms w) w
    /\ caught_and_logged wt (gemini_content response) (gemini_tokens response)
                         rq (_send_callback_gemini wt trace_id response duration_ms w) w
    /\ caught_and_logged wt (openai_content response) (openai_tokens response)
                         rq (_send_callback_mistral wt trace_id response duration_ms w) w.
Proof.
  intros. subst rq. split; [|split; [|split]];
    [ unfold _send_callback | unfold _send_callback_openai
    | unfold _send_callback_gemini | unfold _send_callback_mistral ];
    apply (reporter_never_raises wt _ _
             (fun c t => callback_request wt trace_id c duration_ms t)).
Qed.

Lemma C8_callback_reporters_never_raise_witness :
  let unread := _send_callback (session (answers 200 PNone)) (PStr "trace-1")
                               tool_use_response 3 fresh_world in
  let refusal := _send_callback (session refused) (PStr "trace-1")
                                text_response 3 fresh_world in
  let fine := _send_callback (session (answers 500 PNone)) (PStr "trace-1")
                             text_response 3 fresh_world in
  (fst unread = Ok tt
   /\ stdout (snd unread)
      = ["Observ callback error: object has no attribute 'text'"])
  /\ (fst refusal = Ok tt
      /\ stdout (snd refusal) = ["Observ callback error: connection refused"])
  /\ (fst fine = Ok tt /\ stdout (snd fine) = []).
Proof.
  cbv zeta.
  destruct (C8_callback_reporters_never_raise
              (session (answers 200 PNone)) (PStr "trace-1") tool_use_response 3
              fresh_world) as [(U1 & U2 & _) _].
  destruct (C8_callback_reporters_never_raise
              (session refused) (PStr "trace-1") text_response 3
              fresh_world) as [(R1 & R2 & _) _].
  destruct (C8_callback_reporters_never_raise
              (session (answers 500 PNone)) (PStr "trace-1") text_response 3
              fresh_world) as [(F1 & _ & F3 & _) _].
  split; [split; [exact U1|]|split; [split; [exact R1|]|split; [exact F1|]]].
  - apply (U2 (AttributeError "text")).
    apply content_unreadable. reflexivity.
  - apply (R2 (TransportError "connection refused")).
    apply (post_failed _ _ _ _ _ (PStr "hello") (PInt 7)); reflexivity.
  - apply F3. intros e H. inversion H; discriminate.
Defined.

Lemma reporter_posts (wt : Observ) (c t : pyval)
      (rq : pyval -> pyval -> http_request) (w : world) :
  http_log (snd (try_except
                   (c <- lift (Ok c) ;;
                    t <- lift (Ok t) ;;
                    post (http_client wt) (rq c t) ;;;
                    ret tt)
                   (fun e => print ("Observ callback error: " ++ exn_str e)) w))
  = (http_log w ++ [rq c t])%list.
Proof.
  run. destruct (http_client wt (http_log w) (rq c t)); reflexivity.
Qed.

(** C6: for an OpenAI-shaped response the reporter posts a payload whose
    [tokens_used] is [usage.total_tokens] when that field exists, else the
    sum of [prompt_tokens] and [completion_tokens] when both exist, and 0
    when there is no usage; its [content] is the content of the first
    choice's message, the empty string when that content is empty or
    missing or when there is no choice. *)
Theorem C6_openai_callback_extraction :
  forall wt trace_id response duration_ms w,
    (* what is posted is what the two extractions give *)
    (forall content tokens,
        openai_content response = Ok content ->
        openai_tokens response = Ok tokens ->
        http_log (snd (_send_callback_openai wt trace_id response duration_ms w))
        = (http_log w
             ++ [mk_request (callback_url wt)
                            (PDict [("trace_id", trace_id);
                                    ("content", content);
                                    ("duration_ms", PInt duration_ms);
                                    ("tokens_used", tokens)])
                            [] (Some 5)])%list)
    (* an explicit total wins *)
    /\ (forall usage total,
           getattr response "usage" = Ok usage ->
           getattr usage "total_tokens" = Ok total ->
           openai_tokens response = Ok total)
    (* otherwise the sum of the two parts *)
    /\ (forall usage p c,
           getattr response "usage" = Ok usage ->
           hasattr usage "total_tokens" = false ->
           getattr usage "prompt_tokens" = Ok (PInt p) ->
           getattr usage "completion_tokens" = Ok (PInt c) ->
           openai_tokens response = Ok (PInt (p + c)))
    (* no usage: zero *)
    /\ (hasattr response "usage" = false ->
        openai_tokens response = Ok (PInt 0))
    (* the first choice's message content, or the empty string *)
    /\ (forall choice rest message c,
           getattr response "choices" = Ok (PList (choice :: rest)) ->
           getattr choice "message" = Ok message ->
           getattr message "content" = Ok c ->
           openai_content response = Ok (if truthy c then c else PStr ""))
    /\ (forall choice rest message,
           getattr response "choices" = Ok (PList (choice :: rest)) ->
           getattr choice "message" = Ok message ->
           hasattr message "content" = false ->
           openai_content response = Ok (PStr ""))
    /\ (getattr response "choices" = Ok (PList []) ->
        openai_content response = Ok (PStr ""))
    /\ (hasattr response "choices" = false ->
        openai_content response = Ok (PStr "")).
Proof.
  intros wt trace_id response duration_ms w.
  assert (Hhas : forall v name x, getattr v name = Ok x -> hasattr v name = true).
  { intros v name x. unfold getattr, hasattr.
    destruct v; try discriminate. destruct (assoc name attrs); [reflexivity | discriminate]. }
  repeat split.
  - intros content tokens Hc Ht. unfold _send_callback_openai.
    rewrite Hc, Ht.
    apply (reporter_posts wt content tokens
             (fun c t => callback_request wt trace_id c duration_ms t)).
  - intros usage total Hu Ht. unfold openai_tokens.
    rewrite (Hhas _ _ _ Hu), Hu. cbn. rewrite (Hhas _ _ _ Ht). exact Ht.
  - intros usage p c Hu Hno Hp Hc. unfold openai_tokens.
    rewrite (Hhas _ _ _ Hu), Hu. cbn.
    rewrite Hno, (Hhas _ _ _ Hp), (Hhas _ _ _ Hc), Hp, Hc. reflexivity.
  - intros Hno. unfold openai_tokens. rewrite Hno. reflexivity.
  - intros choice rest message c Hch Hm Hc. unfold openai_content.
    rewrite (Hhas _ _ _ Hch), Hch. cbn -[Z.of_nat].
    replace (Z.of_nat (S (List.length rest)) >? 0) with true
      by (symmetry; apply Z.gtb_lt; lia).
    rewrite Hm. cbn. rewrite (Hhas _ _ _ Hc), Hc. reflexivity.
  - intros choice rest message Hch Hm Hno. unfold openai_content.
    rewrite (Hhas _ _ _ Hch), Hch. cbn -[Z.of_nat].
    replace (Z.of_nat (S (List.length rest)) >? 0) with true
      by (symmetry; apply Z.gtb_lt; lia).
    rewrite Hm. cbn. rewrite Hno. reflexivity.
  - intros Hch. unfold openai_content. rewrite (Hhas _ _ _ Hch), Hch. reflexivity.
  - intros Hno. unfold openai_content. rewrite Hno. reflexivity.
Qed.

Lemma C6_openai_callback_extraction_witness :
  let wt := session refused in
  http_log (snd (_send_callback_openai wt (PStr "trace-1") response_total_42 7
                                       fresh_world))
  = [mk_request (callback_url wt)
                (PDict [("trace_id", PStr "trace-1");
                        ("content", PStr "hello");
                        ("duration_ms", PInt 7);
                        ("tokens_used", PInt 42)])
                [] (Some 5)]
  /\ openai_tokens response_total_42 = Ok (PInt 42)
  /\ openai_tokens response_10_and_5 = Ok (PInt 15)
  /\ openai_tokens response_without_usage = Ok (PInt 0)
  /\ openai_content response_10_and_5 = Ok (PStr "")
  /\ openai_content response_without_usage = Ok (PStr "").
Proof.
  cbv zeta.
  destruct (C6_openai_callback_extraction
              (session refused) (PStr "trace-1") response_total_42 7 fresh_world)
    as (Hpost & Htotal & _).
  destruct (C6_openai_callback_extraction
              (session refused) (PStr "trace-1") response_10_and_5 7 fresh_world)
    as (_ & _ & Hsum & _ & Hcontent & _).
  destruct (C6_openai_callback_extraction
              (session refused) (PStr "trace-1") response_without_usage 7
              fresh_world)
    as (_ & _ & _ & Hzero & _ & _ & Hnone & _).
  split; [exact (Hpost (PStr "hello") (PInt 42) eq_refl eq_refl)|].
  split; [exact (Htotal _ (PInt 42) eq_refl eq_refl)|].
  split; [exact (Hsum _ 10 5 eq_refl eq_refl eq_refl eq_refl)|].
  split; [exact (Hzero eq_refl)|].
  split; [exact (Hcontent _ [] _ PNone eq_refl eq_refl eq_refl)|].
  exact (Hnone eq_refl).
Defined.

(** ** The message normalizers *)

Lemma convert_messages_list (l : list pyval) :
  convert_messages_to_gateway_format (PList l) = Ok (PList (map convert_message l)).
Proof. reflexivity. Qed.

Lemma convert_message_shape (msg : pyval) :
  exists role content,
    convert_message msg = PDict [("role", role); ("content", content)].
Proof. destruct msg; cbn; eauto. Qed.

Lemma convert_message_dict_defaults (d : list (string * pyval)) :
  assoc "role" d = None -> assoc "content" d = None ->
  convert_message (PDict d) = PDict [("role", PStr "user"); ("content", PStr "")].
Proof. intros Hr Hc. cbn. unfold dict_get. rewrite Hr, Hc. reflexivity. Qed.

Lemma convert_message_object_defaults (cls : list string)
      (attrs : list (string * pyval)) :
  assoc "role" attrs = None -> assoc "content" attrs = None ->
  convert_message (PObj cls attrs)
  = PDict [("role", PStr "user"); ("content", PStr "")].
Proof.
  intros Hr Hc. cbn. unfold getattr_default, getattr. rewrite Hr, Hc. reflexivity.
Qed.

Example convert_messages_identity :
  convert_messages_to_gateway_format
    (PList [PDict [("role", PStr "user"); ("content", PStr "hi")]])
  = Ok (PList [PDict [("role", PStr "user"); ("content", PStr "hi")]]).
Proof. reflexivity. Qed.

Lemma gemini_string_prompt (s : string) :
  GeminiGenerateContentWrapper.gateway_messages_of (PStr s)
  = Ok (PList [PDict [("role", PStr "user"); ("content", PStr s)]]).
Proof. reflexivity. Qed.

(** An object item with parts: the first part's text; with an empty parts
    list: the empty string. *)
Lemma gemini_object_item_parts (cls : list string) (attrs : list (string * pyval))
      (part : pyval) (rest : list pyval) (text : pyval) :
  assoc "parts" attrs = Some (PList (part :: rest)) ->
  getattr part "text" = Ok text ->
  GeminiGenerateContentWrapper.convert_item (PObj cls attrs)
  = Ok (PDict [("role", PStr "user"); ("content", text)]).
Proof.
  intros Hp Ht. unfold GeminiGenerateContentWrapper.convert_item, hasattr, getattr.
  rewrite Hp. cbn. fold (getattr part "text"). rewrite Ht. reflexivity.
Qed.

Lemma gemini_object_item_no_parts (cls : list string)
      (attrs : list (string * pyval)) :
  assoc "parts" attrs = Some (PList []) ->
  GeminiGenerateContentWrapper.convert_item (PObj cls attrs)
  = Ok (PDict [("role", PStr "user"); ("content", PStr "")]).
Proof.
  intros Hp. unfold GeminiGenerateContentWrapper.convert_item, hasattr, getattr.
  rewrite Hp. reflexivity.
Qed.

(** A dict item without a parts key falls back on [[""]]. *)
Lemma gemini_dict_item_without_parts (d : list (string * pyval)) :
  assoc "parts" d = None ->
  GeminiGenerateContentWrapper.convert_item (PDict d)
  = Ok (PDict [("role", dict_get d "role" (PStr "user"));
               ("content", dict_get d "content" (PStr ""))]).
Proof.
  intros Hp. unfold GeminiGenerateContentWrapper.convert_item.
  unfold dict_get at 1. rewrite Hp. reflexivity.
Qed.

(** A dict item with parts gets the string conversion of its first part. *)
Example gemini_dict_item_first_part :
  GeminiGenerateContentWrapper.convert_item
    (PDict [("role", PStr "model"); ("parts", PList [PStr "hello"; PStr "world"])])
  = Ok (PDict [("role", PStr "model"); ("content", PStr "hello")]).
Proof. reflexivity. Qed.

(** A dict item whose parts list is empty: [[][0]] raises, even when the
    item carries a content of its own. *)
Lemma gemini_dict_item_empty_parts (d : list (string * pyval)) :
  assoc "parts" d = Some (PList []) ->
  GeminiGenerateContentWrapper.convert_item (PDict d)
  = Raise (IndexError "list index out of range").
Proof.
  intros Hp. unfold GeminiGenerateContentWrapper.convert_item.
  unfold dict_get at 1. rewrite Hp. reflexivity.
Qed.

(** C4: the Gemini normalizer raises on a list prompt holding a dict item
    whose parts list is empty; the [IndexError] leaves [generate_content]
    before the gateway is contacted, and nothing catches it. *)
Theorem C4_gemini_empty_parts_raises :
  forall bound model wt w,
    let prompt := PList [PDict [("role", PStr "user"); ("parts", PList [])]] in
    let self := GeminiGenerateContentWrapper.mk model wt in
    let out := GeminiGenerateContentWrapper.generate_content bound self [prompt] [] w in
    GeminiGenerateContentWrapper.gateway_messages_of prompt
    = Raise (IndexError "list index out of range")
    /\ fst out = Raise (IndexError "list index out of range")
    /\ http_log (snd out) = http_log w
    /\ stdout (snd out) = stdout w.
Proof.
  intros. subst prompt self out. repeat split.
Qed.

(** ** The wrap entry points *)

Lemma guarded_entry_checks (wrapper : ObservWrap.constructor) (wt : Observ)
      (installed : string -> bool) (client : pyval) (pkg ty msg expected : string) :
  let r := ObservWrap.guarded
             (let? _ := ObservWrap.import installed pkg in
              if isinstance client ty then
                let? c := ObservWrap.wrap_chat_completions wrapper wt client in
                Ok (Some c)
              else Ok None)%exc msg expected in
  (installed pkg = false -> raises_import_error r)
  /\ (installed pkg = true -> isinstance client ty = false -> raises_type_error r).
Proof.
  cbv zeta. unfold ObservWrap.import. split.
  - intros ->. exact I.
  - intros -> ->. exact I.
Qed.

(** The OpenAI, Gemini, xAI, Mistral and OpenRouter entry points raise an
    import error when their package is absent and a type error when the
    instance is not of their client type. *)
Lemma sibling_entry_points_check (A : imported_adapters) (e : entry_point) :
  e <> WrapAnthropic -> checks_package_and_type A e.
Proof.
  intros Hne wt installed client.
  destruct e; try congruence; cbn [wrap package client_type].
  - apply guarded_entry_checks.
  - unfold ObservWrap.gemini, ObservWrap.import. split.
    + intros ->. exact I.
    + intros -> ->. exact I.
  - apply guarded_entry_checks.
  - apply guarded_entry_checks.
  - apply guarded_entry_checks.
Qed.

(** The session module loads only where [anthropic] is installed. *)
Lemma load_needs_anthropic (installed : string -> bool) :
  ObservWrap.load installed = Ok tt -> installed "anthropic" = true.
Proof.
  unfold ObservWrap.load, ObservWrap.import.
  destruct (installed "httpx"); [|discriminate]. cbn.
  destruct (installed "anthropic"); [reflexivity | discriminate].
Qed.

Lemma load_fails_without_anthropic (installed : string -> bool) :
  installed "httpx" = true -> installed "anthropic" = false ->
  raises_import_error (ObservWrap.load installed).
Proof.
  intros Hh Ha. unfold ObservWrap.load, ObservWrap.import.
  rewrite Hh. cbn. rewrite Ha. exact I.
Qed.

(** The Anthropic entry point hands back whatever object has a [messages]
    attribute, and fails with an attribute error on one that has none. *)
Lemma anthropic_entry_outcome (wt : Observ) (installed : string -> bool)
      (client : pyval) :
  (exists wrapped, ObservWrap.anthropic wt installed client = Ok wrapped)
  \/ ObservWrap.anthropic wt installed client = Raise (AttributeError "messages").
Proof.
  unfold ObservWrap.anthropic, getattr.
  destruct client; try (right; reflexivity).
  destruct (assoc "messages" attrs); [left | right; reflexivity].
  cbn. eauto.
Qed.

(** C9: the Anthropic entry point handed clients that are no
    [anthropic.Anthropic], with the module loaded and every package
    installed.  An asynchronous Anthropic client comes back with its
    [messages] replaced by the adapter, and a Mistral client gives an
    attribute error: neither call raises a type error, where the Mistral
    and Gemini entry points raise one on the same objects. *)
Theorem C9_anthropic_entry_accepts_any_client :
  let wt := session refused in
  ObservWrap.load all_installed = Ok tt
  /\ isinstance async_anthropic_client (client_type WrapAnthropic) = false
  /\ isinstance mistral_client (client_type WrapAnthropic) = false
  /\ (exists wrapped adapter,
         ObservWrap.anthropic wt all_installed async_anthropic_client = Ok wrapped
         /\ getattr wrapped "messages" = Ok adapter
         /\ isinstance adapter "AnthropicMessagesWrapper" = true)
  /\ ObservWrap.anthropic wt all_installed mistral_client
     = Raise (AttributeError "messages")
  /\ ~ raises_type_error
         (ObservWrap.anthropic wt all_installed async_anthropic_client)
  /\ ~ raises_type_error (ObservWrap.anthropic wt all_installed mistral_client)
  /\ raises_type_error
       (ObservWrap.mistral wt all_installed async_anthropic_client)
  /\ raises_type_error
       (ObservWrap.gemini wt all_installed async_anthropic_client)
  /\ raises_type_error (ObservWrap.gemini wt all_installed mistral_client).
Proof.
  cbv zeta. split; [reflexivity|]. split; [reflexivity|]. split; [reflexivity|].
  split; [eexists _, _; repeat split|].
  split; [reflexivity|].
  split; [cbn; tauto|]. split; [cbn; tauto|].
  split; [exact I|]. split; exact I.
Qed.

(** ** The adapters *)

Lemma intercepted_call_shape p original wt model args kwargs :
  intercepted_call p original wt model args kwargs
  = adapter_call p original wt model args kwargs.
Proof. destruct p; reflexivity. Qed.

Lemma reporter_shape p wt trace_id response duration_ms :
  reporter p wt trace_id response duration_ms
  = try_except
      (c <- lift (reported_content p response) ;;
       t <- lift (reported_tokens p response) ;;
       post (http_client wt) (callback_request wt trace_id c duration_ms t) ;;;
       ret tt)
      (fun e => print ("Observ callback error: " ++ exn_str e)).
Proof. destruct p; reflexivity. Qed.

(** A reporter returns normally, touches neither the provider nor the
    clock nor the chained state, and posts at most one request, to the
    callback endpoint. *)
Lemma reporter_frame p wt trace_id response duration_ms w :
  let out := reporter p wt trace_id response duration_ms w in
  fst out = Ok tt
  /\ sdk_log (snd out) = sdk_log w
  /\ clock_reads (snd out) = clock_reads w
  /\ pending_metadata (snd out) = pending_metadata w
  /\ pending_session_id (snd out) = pending_session_id w
  /\ (http_log (snd out) = http_log w
      \/ exists rq, url rq = callback_url wt
                    /\ http_log (snd out) = (http_log w ++ [rq])%list).
Proof.
  cbv zeta. rewrite reporter_shape. run.
  destruct (reported_content p response) as [c|e];
    [|repeat split; left; reflexivity].
  destruct (reported_tokens p response) as [t|e];
    [|repeat split; left; reflexivity].
  destruct (http_client wt (http_log w) _);
    repeat split; right;
    exists (callback_request wt trace_id c duration_ms t); split; reflexivity.
Qed.

Lemma success_dec status :
  (200 <=? status) && (status <? 300) = true <-> success status.
Proof. unfold success. rewrite andb_true_iff, Z.leb_le, Z.ltb_lt. tauto. Qed.

Lemma raise_for_status_ok status body :
  success status -> raise_for_status (status, body) = Ok tt.
Proof.
  intros H. unfold raise_for_status. cbn [fst].
  apply success_dec in H. rewrite H. reflexivity.
Qed.

Lemma raise_for_status_bad status body :
  ~ success status -> raise_for_status (status, body) = Raise (HTTPStatusError status).
Proof.
  intros H. unfold raise_for_status. cbn [fst].
  destruct ((200 <=? status) && (status <? 300)) eqn:E; [|reflexivity].
  apply success_dec in E. contradiction.
Qed.

(** The handler's path: the error is printed and the wrapped call target
    is invoked. *)
Lemma through_gateway_failure wt rq synth report original w o e :
  http_client wt (http_log w) (decide_request wt rq) = o ->
  gateway_failure o e ->
  through_gateway wt rq synth report original w
  = original (log_line ("Observ gateway error: " ++ exn_str e)
                       (log_post (decide_request wt rq) w)).
Proof.
  intros Ho Hf. unfold through_gateway. run. rewrite Ho.
  destruct Hf as [msg | status body Hbad | status Hok | status v Hok Hv].
  - reflexivity.
  - rewrite (raise_for_status_bad _ _ Hbad).
    destruct (original _) as [[r|x] w']; reflexivity.
  - rewrite (raise_for_status_ok _ _ Hok). cbn.
    destruct (original _) as [[r|x] w']; reflexivity.
  - rewrite (raise_for_status_ok _ _ Hok). cbn.
    destruct v; try discriminate Hv; cbn;
      destruct (original _) as [[r|x] w']; reflexivity.
Qed.

(** The cache-hit path. *)
Lemma through_gateway_cache_hit wt rq synth report original w status d :
  http_client wt (http_log w) (decide_request wt rq)
  = Response status (Some (PDict d)) ->
  success status ->
  dict_get d "action" PNone = PStr "cache_hit" ->
  through_gateway wt rq synth report original w
  = (Ok (synth (dict_get d "content" (PStr ""))),
     log_post (decide_request wt rq) w).
Proof.
  intros Ho Hok Hact. unfold through_gateway. run. rewrite Ho.
  rewrite (raise_for_status_ok _ _ Hok). cbn. rewrite Hact. reflexivity.
Qed.

(** The pass-through path when the wrapped call returns: both clock
    readings, the reporter, then the response itself. *)
Lemma through_gateway_pass_ok wt rq synth report original w status d r w3 :
  (forall tid resp ms w0, fst (report wt tid resp ms w0) = Ok tt) ->
  http_client wt (http_log w) (decide_request wt rq)
  = Response status (Some (PDict d)) ->
  success status ->
  pass_through d ->
  original (tick (log_post (decide_request wt rq) w)) = (Ok r, w3) ->
  through_gateway wt rq synth report original w
  = (Ok r,
     snd (report wt (dict_get d "trace_id" PNone) r
                 (int_ms (clock w3)
                    (reading (clock w) (http_log w ++ [decide_request wt rq])
                             (sdk_log w) (clock_reads w))
                    (reading (clock w3) (http_log w3) (sdk_log w3)
                             (clock_reads w3)))
                 (tick w3))).
Proof.
  intros Hrep Ho Hok Hpass Hr. unfold through_gateway. run. rewrite Ho.
  rewrite (raise_for_status_ok _ _ Hok). cbn.
  unfold pass_through in Hpass. rewrite Hpass. run. rewrite Hr.
  specialize (Hrep (dict_get d "trace_id" PNone) r
                   (int_ms (clock w3)
                      (reading (clock w) (http_log w ++ [decide_request wt rq])
                               (sdk_log w) (clock_reads w))
                      (reading (clock w3) (http_log w3) (sdk_log w3)
                               (clock_reads w3)))
                   (tick w3)).
  destruct (report _ _ _ _ _) as [[[]|x] w5]; cbn in Hrep; [reflexivity|discriminate].
Qed.

(** The pass-through path when the wrapped call raises: the handler of the
    same [try] catches the provider's exception and calls again. *)
Lemma through_gateway_pass_raise wt rq synth report original w status d e w3 :
  http_client wt (http_log w) (decide_request wt rq)
  = Response status (Some (PDict d)) ->
  success status ->
  pass_through d ->
  original (tick (log_post (decide_request wt rq) w)) = (Raise e, w3) ->
  through_gateway wt rq synth report original w
  = original (log_line ("Observ gateway error: " ++ exn_str e) w3).
Proof.
  intros Ho Hok Hpass Hr. unfold through_gateway. run. rewrite Ho.
  rewrite (raise_for_status_ok _ _ Hok). cbn.
  unfold pass_through in Hpass. rewrite Hpass. run. rewrite Hr.
  destruct (original _) as [[r|x] w']; reflexivity.
Qed.

(** The intercepted call consumes the chained state, then normalizes. *)
Lemma adapter_call_normalized p original wt model args kwargs w msgs :
  gateway_messages p args kwargs = Ok msgs ->
  adapter_call p original wt model args kwargs w
  = through_gateway wt
      (envelope p wt model args kwargs (pending_metadata w)
                (pending_session_id w) msgs)
      (synthesized p (model_arg p wt model args kwargs))
      (reporter p) (original args kwargs) (consumed w).
Proof.
  intros H. unfold adapter_call. run. rewrite H. reflexivity.
Qed.

Lemma adapter_call_not_normalized p original wt model args kwargs w e :
  gateway_messages p args kwargs = Raise e ->
  adapter_call p original wt model args kwargs w = (Raise e, consumed w).
Proof.
  intros H. unfold adapter_call. run. rewrite H. reflexivity.
Qed.

(** Every outcome of the decision round trip is a failure, a cache hit or
    a pass-through decision. *)
Lemma decision_cases (o : http_outcome) :
  (exists e, gateway_failure o e)
  \/ (exists status d, o = Response status (Some (PDict d)) /\ success status
                       /\ dict_get d "action" PNone = PStr "cache_hit")
  \/ (exists status d, o = Response status (Some (PDict d)) /\ success status
                       /\ pass_through d).
Proof.
  destruct o as [msg | status body].
  { left. eexists. constructor. }
  destruct ((200 <=? status) && (status <? 300)) eqn:E.
  2:{ left. eexists. apply bad_status. intros H.
      apply (proj2 (success_dec status)) in H. rewrite H in E. discriminate E. }
  apply (proj1 (success_dec status)) in E.
  destruct body as [v|].
  2:{ left. eexists. apply malformed_json. exact E. }
  destruct (is_dict v) eqn:Hv.
  2:{ left. eexists. apply not_an_object; assumption. }
  destruct v; try discriminate Hv.
  destruct (eq_str (dict_get d "action" PNone) "cache_hit") eqn:Ha.
  - right. left. exists status, d.
    split; [reflexivity|]. split; [exact E|].
    unfold eq_str in Ha. destruct (dict_get d "action" PNone); try discriminate.
    apply String.eqb_eq in Ha. congruence.
  - right. right. exists status, d.
    split; [reflexivity|]. split; [exact E|exact Ha].
Qed.

Lemma decides_request wt w o rq :
  decides wt w o -> http_client wt (http_log w) (decide_request wt rq) = o.
Proof. intros H. apply H. reflexivity. Qed.

Lemma synthesized_content p model_name X :
  content_path p (synthesized p model_name X) = Ok X.
Proof. destruct p; reflexivity. Qed.

Lemma synthesized_usage p model_name X :
  exists usage,
    usage_path p (synthesized p model_name X) = Ok usage /\ all_fields_zero usage.
Proof.
  destruct p; eexists; (split; [reflexivity|]); cbn;
    (split; [discriminate | repeat constructor]).
Qed.

(** C2: on a [cache_hit] decision with content [X], every adapter returns
    a synthesized response that exposes [X] on the provider's canonical
    content path and whose usage fields are all zero; the only effect of
    the call besides consuming the chained state is the one decision POST:
    the wrapped call target is not invoked, the clock is not read, no
    callback is posted, nothing is printed. *)
Theorem C2_cache_hit_is_served_from_the_gateway :
  forall p original wt model args kwargs w msgs status d X,
    gateway_messages p args kwargs = Ok msgs ->
    decides wt w (Response status (Some (PDict d))) ->
    success status ->
    assoc "action" d = Some (PStr "cache_hit") ->
    assoc "content" d = Some X ->
    let out := intercepted_call p original wt model args kwargs w in
    exists response usage rq,
      fst out = Ok response
      /\ content_path p response = Ok X
      /\ usage_path p response = Ok usage
      /\ all_fields_zero usage
      /\ snd out = log_post rq (consumed w)
      /\ url rq = decide_url wt
      /\ sdk_log (snd out) = sdk_log w
      /\ clock_reads (snd out) = clock_reads w.
Proof.
  intros p original wt model args kwargs w msgs status d X Hn Hd Hok Ha Hc out.
  subst out. rewrite intercepted_call_shape.
  rewrite (adapter_call_normalized _ _ _ _ _ _ _ _ Hn).
  assert (Hact : dict_get d "action" PNone = PStr "cache_hit")
    by (unfold dict_get; rewrite Ha; reflexivity).
  assert (Hcon : dict_get d "content" (PStr "") = X)
    by (unfold dict_get; rewrite Hc; reflexivity).
  rewrite (through_gateway_cache_hit wt _ _ _ _ (consumed w) status d
             (decides_request wt w _ _ Hd) Hok Hact).
  rewrite Hcon.
  destruct (synthesized_usage p (model_arg p wt model args kwargs) X)
    as (usage & Hu & Hz).
  eexists _, usage, _. cbn [fst snd].
  split; [reflexivity|]. split; [apply synthesized_content|].
  split; [exact Hu|]. split; [exact Hz|].
  split; [reflexivity|]. repeat split.
Qed.

Lemma C2_cache_hit_is_served_from_the_gateway_witness :
  exists response usage,
    fst (intercepted_call Anthropic (sdk_invoke stub_provider)
                          (session (answers 200 (cache_hit "X"))) PNone
                          [] hello fresh_world) = Ok response
    /\ content_path Anthropic response = Ok (PStr "X")
    /\ usage_path Anthropic response = Ok usage
    /\ all_fields_zero usage.
Proof.
  assert (Hok : success 200) by (unfold success; lia).
  destruct (C2_cache_hit_is_served_from_the_gateway
              Anthropic (sdk_invoke stub_provider)
              (session (answers 200 (cache_hit "X"))) PNone [] hello fresh_world
              (PList [PDict [("role", PStr "user"); ("content", PStr "hi")]])
              200 [("action", PStr "cache_hit"); ("content", PStr "X")] (PStr "X")
              eq_refl (fun _ _ => eq_refl) Hok eq_refl eq_refl)
    as (response & usage & rq & H1 & H2 & H3 & H4 & _).
  exists response, usage. repeat split; assumption.
Defined.

(** When the decision round trip fails, an adapter whose call target is
    the provider SDK invokes it once with the caller's arguments and hands
    back its outcome; nothing of the gateway failure reaches the caller.
    This is how the Anthropic and Mistral adapters are wired. *)
Lemma fallback_on_gateway_failure p sdk wt model args kwargs w msgs o e :
  gateway_messages p args kwargs = Ok msgs ->
  decides wt w o ->
  gateway_failure o e ->
  let out := intercepted_call p (sdk_invoke sdk) wt model args kwargs w in
  fst out = sdk (sdk_log w) (args, kwargs)
  /\ sdk_log (snd out) = (sdk_log w ++ [(args, kwargs)])%list
  /\ stdout (snd out)
     = (stdout w ++ [("Observ gateway error: " ++ exn_str e)%string])%list.
Proof.
  intros Hn Hd Hf out. subst out. rewrite intercepted_call_shape.
  rewrite (adapter_call_normalized _ _ _ _ _ _ _ _ Hn).
  rewrite (through_gateway_failure wt _ _ _ _ (consumed w) o e
             (decides_request wt w _ _ Hd) Hf).
  repeat split.
Qed.

Lemma gemini_entry_patches_the_model (wt : Observ) :
  ObservWrap.gemini wt all_installed genai_model = Ok wrapped_genai_model.
Proof. reflexivity. Qed.

(** One frame of a call on the wrapped model: the adapter, with the model's
    own [generate_content] as the wrapped call target. *)
Lemma wrapped_model_call sdk wt depth :
  model_generate_content sdk wt (S depth) wrapped_genai_model
  = intercepted_call Gemini
      (model_generate_content sdk wt depth wrapped_genai_model)
      wt wrapped_genai_model.
Proof. reflexivity. Qed.

(** C1: a Gemini model wrapped by the session's entry point, called while
    the gateway refuses connections.  The handler's call to the original
    [generate_content] finds the adapter's own method on the model, so the
    call re-enters the adapter until the interpreter gives up: at every
    recursion limit the caller gets [RecursionError] and the provider SDK
    is never invoked. *)
Theorem C1_wrapped_gemini_model_has_no_fallback :
  forall sdk depth w,
    let wt := session refused in
    let out := model_generate_content sdk wt depth wrapped_genai_model
                                      [PStr "hi"] [] w in
    ObservWrap.gemini wt all_installed genai_model = Ok wrapped_genai_model
    /\ fst out = Raise RecursionError
    /\ sdk_log (snd out) = sdk_log w.
Proof.
  intros sdk depth w wt out. split; [reflexivity|]. subst out.
  revert w. induction depth as [|depth IH]; intros w.
  - split; reflexivity.
  - rewrite wrapped_model_call, intercepted_call_shape.
    rewrite (adapter_call_normalized Gemini _ wt _ [PStr "hi"] [] w
               (PList [PDict [("role", PStr "user"); ("content", PStr "hi")]])
               eq_refl).
    rewrite (through_gateway_failure wt _ _ _ _ (consumed w)
               (NetworkFailure "connection refused")
               (TransportError "connection refused") eq_refl
               (network_failure _)).
    destruct (IH (log_line
                    ("Observ gateway error: "
                     ++ exn_str (TransportError "connection refused"))
                    (log_post
                       (decide_request wt
                          (envelope Gemini wt wrapped_genai_model [PStr "hi"] []
                                    (pending_metadata w) (pending_session_id w)
                                    (PList [PDict [("role", PStr "user");
                                                   ("content", PStr "hi")]])))
                       (consumed w)))) as [H1 H2].
    split; [exact H1 | exact H2].
Qed.

(** On a pass-through decision, an adapter whose call target is the
    provider SDK invokes it once with the caller's arguments and returns
    the very object it answered. *)
Lemma pass_through_returns_provider_response
      p sdk wt model args kwargs w msgs status d r :
  gateway_messages p args kwargs = Ok msgs ->
  decides wt w (Response status (Some (PDict d))) ->
  success status ->
  pass_through d ->
  sdk (sdk_log w) (args, kwargs) = Ok r ->
  let out := intercepted_call p (sdk_invoke sdk) wt model args kwargs w in
  fst out = Ok r
  /\ sdk_log (snd out) = (sdk_log w ++ [(args, kwargs)])%list.
Proof.
  intros Hn Hd Hok Hp Hr out. subst out. rewrite intercepted_call_shape.
  rewrite (adapter_call_normalized _ _ _ _ _ _ _ _ Hn).
  set (env := envelope p wt model args kwargs (pending_metadata w)
                       (pending_session_id w) msgs).
  set (w2 := tick (log_post (decide_request wt env) (consumed w))).
  assert (Hcall : sdk_invoke sdk args kwargs w2 = (Ok r, log_call (args, kwargs) w2)).
  { unfold sdk_invoke. cbn [sdk_log w2 tick log_post consumed]. rewrite Hr. reflexivity. }
  rewrite (through_gateway_pass_ok wt env _ (reporter p) _ (consumed w) status d r
             (log_call (args, kwargs) w2)
             (fun tid resp ms w0 => proj1 (reporter_frame p wt tid resp ms w0))
             (decides_request wt w _ _ Hd) Hok Hp Hcall).
  cbn [fst snd]. split; [reflexivity|].
  match goal with
  | |- sdk_log (snd (reporter p wt ?tid ?resp ?ms ?w0)) = _ =>
      destruct (reporter_frame p wt tid resp ms w0) as (_ & Hs & _); rewrite Hs
  end.
  reflexivity.
Qed.

(** The unwrapped model answers with the SDK's own method. *)
Lemma unwrapped_model_call sdk wt depth args kwargs w :
  fst (model_generate_content sdk wt depth genai_model args kwargs w)
  = sdk (sdk_log w) (args, kwargs).
Proof. destruct depth; reflexivity. Qed.

(** C5: a Gemini model wrapped by the session's entry point, called while
    the gateway answers every decision request with a pass-through
    decision.  The call to the original [generate_content] finds the
    adapter's own method on the model, so the provider SDK is never
    invoked and the caller gets [RecursionError] at every recursion limit,
    where the unwrapped model returns the SDK's response. *)
Theorem C5_wrapped_gemini_model_never_reaches_the_provider :
  forall sdk depth w,
    let wt := session (answers 200 proceed) in
    let out := model_generate_content sdk wt depth wrapped_genai_model
                                      [PStr "hi"] [] w in
    ObservWrap.gemini wt all_installed genai_model = Ok wrapped_genai_model
    /\ fst (model_generate_content sdk wt depth genai_model [PStr "hi"] [] w)
       = sdk (sdk_log w) ([PStr "hi"], [])
    /\ fst out = Raise RecursionError
    /\ sdk_log (snd out) = sdk_log w.
Proof.
  intros sdk depth w wt out. split; [reflexivity|].
  split; [apply unwrapped_model_call|]. subst out.
  revert w. induction depth as [|depth IH]; intros w.
  - split; reflexivity.
  - rewrite wrapped_model_call, intercepted_call_shape.
    rewrite (adapter_call_normalized Gemini _ wt _ [PStr "hi"] [] w
               (PList [PDict [("role", PStr "user"); ("content", PStr "hi")]])
               eq_refl).
    set (env := envelope Gemini wt wrapped_genai_model [PStr "hi"] []
                         (pending_metadata w) (pending_session_id w)
                         (PList [PDict [("role", PStr "user");
                                        ("content", PStr "hi")]])).
    set (w2 := tick (log_post (decide_request wt env) (consumed w))).
    destruct (model_generate_content sdk wt depth wrapped_genai_model
                                     [PStr "hi"] [] w2) as [r3 w3] eqn:E.
    pose proof (IH w2) as [H1 H2]. rewrite E in H1, H2. cbn [fst snd] in H1, H2.
    subst r3.
    rewrite (through_gateway_pass_raise wt env _ _ _ (consumed w) 200
               [("action", PStr "proceed"); ("trace_id", PStr "trace-1")]
               RecursionError w3 eq_refl
               ltac:(unfold success; lia) eq_refl E).
    destruct (IH (log_line ("Observ gateway error: " ++ exn_str RecursionError) w3))
      as [H3 H4].
    split; [exact H3|]. rewrite H4. exact H2.
Qed.

(** C10: on the pass-through path the provider call sits inside the [try]
    whose handler is the fallback, so when the provider raises, the
    handler calls it again with the same arguments: the SDK is invoked
    twice and the caller gets the outcome of the second invocation. *)
Theorem C10_provider_failure_is_retried_by_the_handler :
  forall p sdk wt model args kwargs w msgs status d e,
    gateway_messages p args kwargs = Ok msgs ->
    decides wt w (Response status (Some (PDict d))) ->
    success status ->
    pass_through d ->
    sdk (sdk_log w) (args, kwargs) = Raise e ->
    let out := intercepted_call p (sdk_invoke sdk) wt model args kwargs w in
    fst out = sdk (sdk_log w ++ [(args, kwargs)])%list (args, kwargs)
    /\ sdk_log (snd out) = (sdk_log w ++ [(args, kwargs); (args, kwargs)])%list
    /\ stdout (snd out)
       = (stdout w ++ [("Observ gateway error: " ++ exn_str e)%string])%list.
Proof.
  intros p sdk wt model args kwargs w msgs status d e Hn Hd Hok Hp Hr out.
  subst out. rewrite intercepted_call_shape.
  rewrite (adapter_call_normalized _ _ _ _ _ _ _ _ Hn).
  set (env := envelope p wt model args kwargs (pending_metadata w)
                       (pending_session_id w) msgs).
  set (w2 := tick (log_post (decide_request wt env) (consumed w))).
  assert (Hcall : sdk_invoke sdk args kwargs w2
                  = (Raise e, log_call (args, kwargs) w2)).
  { unfold sdk_invoke. cbn [sdk_log w2 tick log_post consumed]. rewrite Hr. reflexivity. }
  rewrite (through_gateway_pass_raise wt env _ (reporter p) _ (consumed w) status d e
             (log_call (args, kwargs) w2)
             (decides_request wt w _ _ Hd) Hok Hp Hcall).
  unfold sdk_invoke. cbn. rewrite <- app_assoc. repeat split.
Qed.

Lemma C10_provider_failure_is_retried_by_the_handler_witness :
  let out := intercepted_call Anthropic (sdk_invoke flaky_provider)
                              (session (answers 200 proceed)) PNone
                              [] hello fresh_world in
  fst out = Ok (PObj ["Completion"] [("id", PInt 1)])
  /\ sdk_log (snd out) = [([], hello); ([], hello)].
Proof.
  assert (Hok : success 200) by (unfold success; lia).
  destruct (C10_provider_failure_is_retried_by_the_handler
              Anthropic flaky_provider (session (answers 200 proceed)) PNone
              [] hello fresh_world
              (PList [PDict [("role", PStr "user"); ("content", PStr "hi")]])
              200 [("action", PStr "proceed"); ("trace_id", PStr "trace-1")]
              (ProviderError "overloaded")
              eq_refl (fun _ _ => eq_refl) Hok eq_refl eq_refl)
    as (H1 & H2 & _).
  split; [exact H1 | exact H2].
Defined.

(** ** Chained state *)

Lemma append_eqb_prefix (a b c : string) :
  String.eqb (a ++ b) (a ++ c) = String.eqb b c.
Proof.
  induction a as [|ch a IH]; [reflexivity|].
  cbn. rewrite Ascii.eqb_refl. exact IH.
Qed.

Lemma envelopes_app wt (l1 l2 : list http_request) :
  envelopes wt (l1 ++ l2) = (envelopes wt l1 ++ envelopes wt l2)%list.
Proof. unfold envelopes. rewrite filter_app, map_app. reflexivity. Qed.

Lemma envelopes_decide wt (rq : pyval) :
  envelopes wt [decide_request wt rq] = [rq].
Proof.
  unfold envelopes, decide_request, decide_url. cbn.
  rewrite String.eqb_refl. reflexivity.
Qed.

Lemma envelopes_callback wt (cb : http_request) :
  url cb = callback_url wt -> envelopes wt [cb] = [].
Proof.
  intros H. unfold envelopes, callback_url, decide_url in *. cbn.
  rewrite H, append_eqb_prefix. reflexivity.
Qed.

Lemma chained_call_shape p original wt model metadata session_id args kwargs w :
  chained_call p original wt model metadata session_id args kwargs w
  = intercepted_call p original wt model args kwargs
                     (with_pending metadata session_id w).
Proof.
  unfold chained_call. destruct p; reflexivity.
Qed.

(** Whatever the gateway and the provider do, an intercepted call whose
    normalizer succeeds posts one envelope, built from the chained state it
    found, and leaves the chained state empty. *)
Lemma intercepted_call_trace p sdk wt model args kwargs w msgs :
  gateway_messages p args kwargs = Ok msgs ->
  let w' := snd (intercepted_call p (sdk_invoke sdk) wt model args kwargs w) in
  envelopes wt (http_log w')
  = (envelopes wt (http_log w)
       ++ [envelope p wt model args kwargs (pending_metadata w)
                    (pending_session_id w) msgs])%list
  /\ pending_metadata w' = PDict []
  /\ pending_session_id w' = PNone.
Proof.
  intros Hn w'. subst w'. rewrite intercepted_call_shape.
  rewrite (adapter_call_normalized _ _ _ _ _ _ _ _ Hn).
  set (env := envelope p wt model args kwargs (pending_metadata w)
                       (pending_session_id w) msgs).
  set (w2 := tick (log_post (decide_request wt env) (consumed w))).
  destruct (decision_cases (http_client wt (http_log w) (decide_request wt env)))
    as [[e Hf] | [(status & d & Ho & Hok & Hact) | (status & d & Ho & Hok & Hp)]].
  - rewrite (through_gateway_failure wt env _ _ _ (consumed w) _ e eq_refl Hf).
    fields. rewrite envelopes_app, envelopes_decide. repeat split.
  - rewrite (through_gateway_cache_hit wt env _ _ _ (consumed w) status d Ho Hok Hact).
    fields. rewrite envelopes_app, envelopes_decide. repeat split.
  - destruct (sdk (sdk_log w) (args, kwargs)) as [r|x] eqn:Hr.
    + assert (Hcall : sdk_invoke sdk args kwargs w2
                      = (Ok r, log_call (args, kwargs) w2)).
      { unfold sdk_invoke. cbn [sdk_log w2 tick log_post consumed].
        rewrite Hr. reflexivity. }
      rewrite (through_gateway_pass_ok wt env _ (reporter p) _ (consumed w)
                 status d r (log_call (args, kwargs) w2)
                 (fun tid resp ms w0 => proj1 (reporter_frame p wt tid resp ms w0))
                 Ho Hok Hp Hcall).
      cbn [snd].
      match goal with
      | |- context [reporter p wt ?tid ?resp ?ms ?w0] =>
          destruct (reporter_frame p wt tid resp ms w0)
            as (_ & _ & _ & Hm & Hs & Hlog)
      end.
      rewrite Hm, Hs. split; [|split; reflexivity].
      destruct Hlog as [-> | (cb & Hcb & ->)]; subst w2; fields.
      * rewrite envelopes_app, envelopes_decide. reflexivity.
      * rewrite !envelopes_app, envelopes_decide, (envelopes_callback _ _ Hcb).
        rewrite app_nil_r. reflexivity.
    + assert (Hcall : sdk_invoke sdk args kwargs w2
                      = (Raise x, log_call (args, kwargs) w2)).
      { unfold sdk_invoke. cbn [sdk_log w2 tick log_post consumed].
        rewrite Hr. reflexivity. }
      rewrite (through_gateway_pass_raise wt env _ (reporter p) _ (consumed w)
                 status d x (log_call (args, kwargs) w2) Ho Hok Hp Hcall).
      subst w2. fields. rewrite envelopes_app, envelopes_decide. repeat split.
Qed.

(** The chained state is consumed before anything can fail: it is empty
    after the call whether the normalizer raised, the gateway failed or
    the provider raised. *)
Lemma chained_state_is_reset p sdk wt model args kwargs w :
  let w' := snd (intercepted_call p (sdk_invoke sdk) wt model args kwargs w) in
  pending_metadata w' = PDict [] /\ pending_session_id w' = PNone.
Proof.
  cbv zeta. destruct (gateway_messages p args kwargs) as [msgs|e] eqn:Hn.
  - destruct (intercepted_call_trace p sdk wt model args kwargs w msgs Hn)
      as (_ & H1 & H2).
    split; assumption.
  - rewrite intercepted_call_shape.
    rewrite (adapter_call_not_normalized _ _ _ _ _ _ _ _ Hn). split; reflexivity.
Qed.

(** An empty session id chained on the Anthropic adapter: the envelope of
    the call carries the metadata but no [external_session_id]. *)
Lemma C3_empty_session_id_is_not_sent :
  let wt := session refused in
  let m := PDict [("k", PStr "v")] in
  let w1 := snd (chained_call Anthropic (sdk_invoke stub_provider) wt PNone
                              m (PStr "") [] hello fresh_world) in
  exists env,
    envelopes wt (http_log w1) = [env]
    /\ dict_field env "metadata" = Some m
    /\ dict_field env "external_session_id" <> Some (PStr "")
    /\ dict_field env "external_session_id" = None.
Proof.
  cbv zeta. eexists. split; [reflexivity|]. split; [reflexivity|].
  split; [discriminate | reflexivity].
Qed.

(** C3, for a non-empty session id and arguments the normalizer accepts:
    with metadata [m] and session id [s] chained, one call on an adapter
    whose call target is the provider SDK posts exactly one envelope, with
    [metadata = m] and [external_session_id = s]; the next call, without
    chaining, posts exactly one envelope with [metadata = {}] and no
    [external_session_id] key.  A call whose normalizer raises hands that
    exception to the caller and posts no envelope.  After any call, failed
    or not, the chained state is empty. *)
Theorem C3_chained_state_is_used_by_one_call :
  forall p sdk wt model m s args kwargs args' kwargs' w msgs msgs',
    s <> "" ->
    gateway_messages p args kwargs = Ok msgs ->
    gateway_messages p args' kwargs' = Ok msgs' ->
    let w1 := snd (chained_call p (sdk_invoke sdk) wt model m (PStr s)
                                args kwargs w) in
    let w2 := snd (intercepted_call p (sdk_invoke sdk) wt model args' kwargs' w1) in
    (exists env1 env2,
        envelopes wt (http_log w1) = (envelopes wt (http_log w) ++ [env1])%list
        /\ dict_field env1 "metadata" = Some m
        /\ dict_field env1 "external_session_id" = Some (PStr s)
        /\ envelopes wt (http_log w2) = (envelopes wt (http_log w1) ++ [env2])%list
        /\ dict_field env2 "metadata" = Some (PDict [])
        /\ dict_field env2 "external_session_id" = None)
    /\ (forall args0 kwargs0 w0 e,
           gateway_messages p args0 kwargs0 = Raise e ->
           let out := intercepted_call p (sdk_invoke sdk) wt model
                                       args0 kwargs0 w0 in
           fst out = Raise e
           /\ envelopes wt (http_log (snd out)) = envelopes wt (http_log w0))
    /\ (forall args0 kwargs0 w0,
           let w' := snd (intercepted_call p (sdk_invoke sdk) wt model
                                           args0 kwargs0 w0) in
           pending_metadata w' = PDict [] /\ pending_session_id w' = PNone).
Proof.
  intros p sdk wt model m s args kwargs args' kwargs' w msgs msgs' Hs Hn Hn' w1 w2.
  split; [|split; [|intros; apply chained_state_is_reset]].
  2:{ intros args0 kwargs0 w0 e He out. subst out.
      rewrite intercepted_call_shape.
      rewrite (adapter_call_not_normalized _ _ _ _ _ _ _ _ He).
      split; reflexivity. }
  subst w2 w1. rewrite chained_call_shape.
  destruct (intercepted_call_trace p sdk wt model args kwargs
              (with_pending m (PStr s) w) msgs Hn) as (E1 & M1 & S1).
  cbn [http_log pending_metadata pending_session_id with_pending] in E1.
  set (w1 := snd (intercepted_call p (sdk_invoke sdk) wt model args kwargs
                                   (with_pending m (PStr s) w))) in *.
  destruct (intercepted_call_trace p sdk wt model args' kwargs' w1 msgs' Hn')
    as (E2 & _ & _).
  rewrite M1, S1 in E2.
  eexists _, _. split; [exact E1|].
  split; [apply build_completion_request_metadata|].
  split.
  { unfold envelope. rewrite build_completion_request_session.
    cbn [truthy]. apply String.eqb_neq in Hs. rewrite Hs. reflexivity. }
  split; [exact E2|].
  split; [apply build_completion_request_metadata|].
  unfold envelope. rewrite build_completion_request_session. reflexivity.
Qed.

Lemma C3_chained_state_is_used_by_one_call_witness :
  let wt := session (answers 200 proceed) in
  let w1 := snd (chained_call Mistral (sdk_invoke stub_provider) wt PNone
                              (PDict [("k", PStr "v")]) (PStr "s1")
                              [] hello fresh_world) in
  let w2 := snd (intercepted_call Mistral (sdk_invoke stub_provider) wt PNone
                                  [] hello w1) in
  let failed := intercepted_call Mistral (sdk_invoke stub_provider) wt PNone
                                 [] [("messages", PNone)] w2 in
  (exists env1 env2,
      envelopes wt (http_log w1) = [env1]
      /\ dict_field env1 "metadata" = Some (PDict [("k", PStr "v")])
      /\ dict_field env1 "external_session_id" = Some (PStr "s1")
      /\ envelopes wt (http_log w2) = [env1; env2]
      /\ dict_field env2 "metadata" = Some (PDict [])
      /\ dict_field env2 "external_session_id" = None)
  /\ fst failed = Raise (TypeError "'NoneType' object is not iterable")
  /\ envelopes wt (http_log (snd failed)) = envelopes wt (http_log w2).
Proof.
  cbv zeta.
  assert (Hs : "s1" <> "") by discriminate.
  destruct (C3_chained_state_is_used_by_one_call
              Mistral stub_provider (session (answers 200 proceed)) PNone
              (PDict [("k", PStr "v")]) "s1" [] hello [] hello fresh_world
              (PList [PDict [("role", PStr "user"); ("content", PStr "hi")]])
              (PList [PDict [("role", PStr "user"); ("content", PStr "hi")]])
              Hs eq_refl eq_refl)
    as [(env1 & env2 & H1 & H2 & H3 & H4 & H5 & H6) [Hfail _]].
  split.
  - exists env1, env2.
    split; [exact H1|]. split; [exact H2|]. split; [exact H3|].
    split; [rewrite H4, H1; reflexivity|]. split; [exact H5 | exact H6].
  - exact (Hfail [] [("messages", PNone)] _ _ eq_refl).
Defined.


(* ================================================================== *)
(** * Further properties *)

(** ** Association lists *)

Lemma assoc_set_same {A} (k : string) (v : A) (l : list (string * A)) :
  assoc k (assoc_set k v l) = Some v.
Proof.
  induction l as [|[k' v'] l IH]; cbn.
  - rewrite String.eqb_refl. reflexivity.
  - destruct (String.eqb k k') eqn:E; cbn.
    + rewrite String.eqb_refl. reflexivity.
    + rewrite E. exact IH.
Qed.

Lemma assoc_set_other {A} (k k' : string) (v : A) (l : list (string * A)) :
  k <> k' -> assoc k (assoc_set k' v l) = assoc k l.
Proof.
  intros Hne. induction l as [|[k0 v0] l IH]; cbn.
  - apply String.eqb_neq in Hne. rewrite Hne. reflexivity.
  - destruct (String.eqb k' k0) eqn:E; cbn.
    + apply String.eqb_eq in E. subst k0.
      apply String.eqb_neq in Hne. rewrite Hne. reflexivity.
    + destruct (String.eqb k k0); [reflexivity | exact IH].
Qed.

(** ** providers/base.py *)

Lemma convert_message_is_gateway_message (msg : pyval) :
  is_gateway_message (convert_message msg).
Proof. destruct msg; cbn; unfold is_gateway_message; eauto. Qed.

Lemma convert_message_fixed (m : pyval) :
  is_gateway_message m -> convert_message m = m.
Proof. intros (role & content & ->). reflexivity. Qed.

(** X1: on a list the base normalizer never raises; its output has one
    canonical message per input item, in the order of the input: the
    message at each position is the conversion of the item at that
    position, its role and content read from the item with the key lookup
    of a dict or the attribute lookup of an object, ["user"] and the empty
    string standing in for what is missing.  Normalizing the output again
    changes nothing. *)
Theorem convert_messages_normal_form :
  forall l,
  exists out,
    convert_messages_to_gateway_format (PList l) = Ok (PList out)
    /\ List.length out = List.length l
    /\ (forall i item,
           nth_error l i = Some item ->
           nth_error out i
           = Some (PDict
                     [("role",
                       match item with
                       | PDict d => dict_get d "role" (PStr "user")
                       | _ => getattr_default item "role" (PStr "user")
                       end);
                      ("content",
                       match item with
                       | PDict d => dict_get d "content" (PStr "")
                       | _ => getattr_default item "content" (PStr "")
                       end)]))
    /\ Forall is_gateway_message out
    /\ convert_messages_to_gateway_format (PList out) = Ok (PList out).
Proof.
  intros l. exists (map convert_message l).
  split; [reflexivity|]. split; [apply length_map|]. split; [|split].
  - intros i item Hi. rewrite nth_error_map, Hi. cbn [option_map].
    f_equal. destruct item; reflexivity.
  - apply Forall_forall. intros m Hm. apply in_map_iff in Hm.
    destruct Hm as (x & <- & _). apply convert_message_is_gateway_message.
  - cbn. rewrite map_map. f_equal. f_equal. apply map_ext.
    intros m. apply convert_message_fixed, convert_message_is_gateway_message.
Qed.

Lemma convert_messages_normal_form_witness :
  convert_messages_to_gateway_format
    (PList [PObj ["Msg"] [("content", PStr "first")];
            PDict [("role", PStr "assistant"); ("content", PStr "second")]])
  = Ok (PList [PDict [("role", PStr "user"); ("content", PStr "first")];
               PDict [("role", PStr "assistant"); ("content", PStr "second")]]).
Proof.
  destruct (convert_messages_normal_form
              [PObj ["Msg"] [("content", PStr "first")];
               PDict [("role", PStr "assistant"); ("content", PStr "second")]])
    as (out & Hout & Hlen & Hnth & _).
  rewrite Hout. f_equal. f_equal.
  pose proof (Hnth 0%nat _ eq_refl) as H0.
  pose proof (Hnth 1%nat _ eq_refl) as H1.
  destruct out as [|a [|b [|c out]]]; try discriminate Hlen.
  cbn in H0, H1. injection H0 as ->. injection H1 as ->. reflexivity.
Defined.

Lemma convert_chars (s : string) :
  map convert_message (chars s) = repeat empty_user_message (String.length s).
Proof.
  unfold chars. induction s as [|c s IH]; [reflexivity|].
  cbn. f_equal. exact IH.
Qed.

Lemma convert_keys (d : list (string * pyval)) :
  map convert_message (map (fun kv => PStr (fst kv)) d)
  = repeat empty_user_message (List.length d).
Proof.
  induction d as [|kv d IH]; [reflexivity|]. cbn. f_equal. exact IH.
Qed.

(** X2: the base normalizer does not insist on a list.  A string yields one
    empty user message per character and a dict one per key; only a value
    that cannot be iterated ([None], a number, a plain object) makes it
    raise, with a type error. *)
Theorem convert_messages_of_a_non_list :
  forall v,
    match v with
    | PList _ => True
    | PStr s =>
        convert_messages_to_gateway_format v
        = Ok (PList (repeat empty_user_message (String.length s)))
    | PDict d =>
        convert_messages_to_gateway_format v
        = Ok (PList (repeat empty_user_message (List.length d)))
    | _ => exists msg, convert_messages_to_gateway_format v = Raise (TypeError msg)
    end.
Proof.
  intros v. destruct v; try exact I; try (eexists; reflexivity).
  - cbn. rewrite convert_chars. reflexivity.
  - cbn. rewrite convert_keys. reflexivity.
Qed.

(** X3: the envelope has the six fixed keys, followed by
    [external_session_id] exactly when the session id is truthy; provider,
    model, messages and metadata are stored as given; the session's API key
    and project id are never part of it. *)
Theorem envelope_keys_and_session_key :
  forall provider model gateway_messages wt metadata session_id,
  exists d,
    build_completion_request provider model gateway_messages wt metadata session_id
    = PDict d
    /\ map fst d
       = (envelope_keys
            ++ (if truthy session_id then ["external_session_id"] else []))%list
    /\ assoc "provider" d = Some (PStr provider)
    /\ assoc "model" d = Some model
    /\ assoc "messages" d = Some gateway_messages
    /\ assoc "metadata" d = Some metadata
    /\ (truthy session_id = true -> assoc "external_session_id" d = Some session_id)
    /\ (truthy session_id = false -> assoc "external_session_id" d = None)
    /\ assoc "project_id" d = None
    /\ assoc "api_key" d = None.
Proof.
  intros. unfold build_completion_request. eexists. split; [reflexivity|].
  destruct (truthy session_id); cbn;
    repeat split; try reflexivity; intros; try reflexivity; discriminate.
Qed.

Lemma envelope_keys_and_session_key_witness :
  exists d,
    build_completion_request "anthropic" (PStr "m") (PList [])
                             (session refused) (PDict []) (PStr "s1") = PDict d
    /\ assoc "external_session_id" d = Some (PStr "s1")
    /\ exists d',
        build_completion_request "anthropic" (PStr "m") (PList [])
                                 (session refused) (PDict []) (PStr "") = PDict d'
        /\ assoc "external_session_id" d' = None.
Proof.
  destruct (envelope_keys_and_session_key
              "anthropic" (PStr "m") (PList []) (session refused) (PDict [])
              (PStr "s1")) as (d & Hd & _ & _ & _ & _ & _ & Hyes & _).
  destruct (envelope_keys_and_session_key
              "anthropic" (PStr "m") (PList []) (session refused) (PDict [])
              (PStr "")) as (d' & Hd' & _ & _ & _ & _ & _ & _ & Hno & _).
  exists d. split; [exact Hd|]. split; [exact (Hyes eq_refl)|].
  exists d'. split; [exact Hd' | exact (Hno eq_refl)].
Defined.


(** ** The adapters, path by path *)

(** X4: the normalizer runs outside the [try], so when it raises, the
    intercepted call raises the same exception: the gateway is not asked,
    the wrapped call target is not invoked, nothing is printed, and the
    chained state has already been consumed. *)
Theorem normalizer_failure_escapes :
  forall p original wt model args kwargs w e,
    gateway_messages p args kwargs = Raise e ->
    intercepted_call p original wt model args kwargs w = (Raise e, consumed w).
Proof.
  intros. rewrite intercepted_call_shape.
  apply adapter_call_not_normalized. assumption.
Qed.

Lemma normalizer_failure_escapes_witness :
  exists msg,
    intercepted_call Anthropic (sdk_invoke stub_provider) (session refused)
                     PNone [] [("messages", PNone)] fresh_world
    = (Raise (TypeError msg), consumed fresh_world).
Proof.
  eexists.
  apply (normalizer_failure_escapes
           Anthropic (sdk_invoke stub_provider) (session refused) PNone
           [] [("messages", PNone)] fresh_world).
  reflexivity.
Defined.

(** X5: when the decision round trip fails (transport error, status other
    than 2xx, body that is not a JSON object), an adapter wired to the
    provider SDK does exactly this: one POST to the decision endpoint, one
    printed line, one provider invocation with the caller's arguments,
    whose outcome it hands back.  It reads no clock and posts no
    callback. *)
Theorem gateway_failure_costs_one_request :
  forall p sdk wt model args kwargs w msgs o e,
    gateway_messages p args kwargs = Ok msgs ->
    decides wt w o ->
    gateway_failure o e ->
    intercepted_call p (sdk_invoke sdk) wt model args kwargs w
    = (sdk (sdk_log w) (args, kwargs),
       log_call (args, kwargs)
         (log_line ("Observ gateway error: " ++ exn_str e)
            (log_post
               (decide_request wt
                  (envelope p wt model args kwargs (pending_metadata w)
                            (pending_session_id w) msgs))
               (consumed w)))).
Proof.
  intros p sdk wt model args kwargs w msgs o e Hn Hd Hf.
  rewrite intercepted_call_shape.
  rewrite (adapter_call_normalized _ _ _ _ _ _ _ _ Hn).
  rewrite (through_gateway_failure wt _ _ _ _ (consumed w) o e
             (decides_request wt w _ _ Hd) Hf).
  reflexivity.
Qed.

(** A cache-hit body under status 500 is not served: the provider is. *)
Lemma gateway_failure_costs_one_request_witness :
  let out := intercepted_call Mistral (sdk_invoke stub_provider)
                              (session (answers 500 (cache_hit "X"))) PNone
                              [] hello fresh_world in
  fst out = Ok (PObj ["Completion"] [("id", PInt 0)])
  /\ List.length (http_log (snd out)) = 1%nat
  /\ sdk_log (snd out) = [([], hello)]
  /\ stdout (snd out) = ["Observ gateway error: HTTP status 500"].
Proof.
  cbv zeta.
  rewrite (gateway_failure_costs_one_request
             Mistral stub_provider (session (answers 500 (cache_hit "X"))) PNone
             [] hello fresh_world
             (PList [PDict [("role", PStr "user"); ("content", PStr "hi")]])
             (Response 500 (Some (cache_hit "X"))) (HTTPStatusError 500)
             eq_refl (fun _ _ => eq_refl)
             (bad_status 500 _ ltac:(unfold success; lia))).
  repeat split.
Defined.

Lemma reporter_posts_extracted p wt trace_id response duration_ms w c t :
  reported_content p response = Ok c ->
  reported_tokens p response = Ok t ->
  let out := reporter p wt trace_id response duration_ms w in
  http_log (snd out)
  = (http_log w ++ [callback_request wt trace_id c duration_ms t])%list
  /\ sdk_log (snd out) = sdk_log w
  /\ clock_reads (snd out) = clock_reads w.
Proof.
  intros Hc Ht. cbv zeta. rewrite reporter_shape. run. rewrite Hc, Ht.
  destruct (http_client wt (http_log w) _); repeat split.
Qed.

Lemma reporter_extraction_fails p wt trace_id response duration_ms w x :
  reported_content p response = Raise x
  \/ (exists c, reported_content p response = Ok c
                /\ reported_tokens p response = Raise x) ->
  reporter p wt trace_id response duration_ms w
  = (Ok tt, log_line ("Observ callback error: " ++ exn_str x) w).
Proof.
  intros [Hc | (c & Hc & Ht)]; rewrite reporter_shape; run.
  - rewrite Hc. reflexivity.
  - rewrite Hc, Ht. reflexivity.
Qed.

(** X6: on a pass-through decision, when the provider answers and the
    reporter can read the answer, the call returns the provider's object
    after exactly two POSTs: the decision request, then a callback that
    carries the decision's [trace_id] ([None] when the decision has none),
    the extracted content and tokens, and as duration the host's
    [int((t1 - t0) * 1000)], where [t0] is the clock reading taken after
    the decision request and before the provider invocation and [t1] the
    reading taken after that invocation.  The provider is invoked once and
    the clock is read twice. *)
Theorem pass_through_posts_decision_then_callback :
  forall p sdk wt model args kwargs w msgs status d r c t,
    gateway_messages p args kwargs = Ok msgs ->
    decides wt w (Response status (Some (PDict d))) ->
    success status ->
    pass_through d ->
    sdk (sdk_log w) (args, kwargs) = Ok r ->
    reported_content p r = Ok c ->
    reported_tokens p r = Ok t ->
    let out := intercepted_call p (sdk_invoke sdk) wt model args kwargs w in
    let decision :=
      decide_request wt
        (envelope p wt model args kwargs (pending_metadata w)
                  (pending_session_id w) msgs) in
    let t0 := reading (clock w) (http_log w ++ [decision])
                      (sdk_log w) (clock_reads w) in
    let t1 := reading (clock w) (http_log w ++ [decision])
                      (sdk_log w ++ [(args, kwargs)]) (S (clock_reads w)) in
    fst out = Ok r
    /\ http_log (snd out)
       = (http_log w
            ++ [decision;
                callback_request wt (dict_get d "trace_id" PNone) c
                                 (int_ms (clock w) t0 t1) t])%list
    /\ sdk_log (snd out) = (sdk_log w ++ [(args, kwargs)])%list
    /\ clock_reads (snd out) = S (S (clock_reads w)).
Proof.
  intros p sdk wt model args kwargs w msgs status d r c t
         Hn Hd Hok Hp Hr Hc Ht out decision t0 t1.
  subst out t0 t1 decision. rewrite intercepted_call_shape.
  rewrite (adapter_call_normalized _ _ _ _ _ _ _ _ Hn).
  set (env := envelope p wt model args kwargs (pending_metadata w)
                       (pending_session_id w) msgs).
  set (w2 := tick (log_post (decide_request wt env) (consumed w))).
  assert (Hcall : sdk_invoke sdk args kwargs w2 = (Ok r, log_call (args, kwargs) w2)).
  { unfold sdk_invoke. cbn [sdk_log w2 tick log_post consumed]. rewrite Hr. reflexivity. }
  rewrite (through_gateway_pass_ok wt env _ (reporter p) _ (consumed w) status d r
             (log_call (args, kwargs) w2)
             (fun tid resp ms w0 => proj1 (reporter_frame p wt tid resp ms w0))
             (decides_request wt w _ _ Hd) Hok Hp Hcall).
  cbn [fst snd]. split; [reflexivity|].
  match goal with
  | |- context [reporter p wt ?tid ?resp ?ms ?w0] =>
      destruct (reporter_posts_extracted p wt tid resp ms w0 c t Hc Ht)
        as (Hlog & Hsdk & Hclk)
  end.
  rewrite Hlog, Hsdk, Hclk. subst w2. fields.
  rewrite <- app_assoc. repeat split.
Qed.

Lemma pass_through_posts_decision_then_callback_witness :
  let wt := session (answers 200 proceed) in
  let out := intercepted_call Anthropic (sdk_invoke (provider_answering text_response))
                              wt PNone [] hello fresh_world in
  fst out = Ok text_response
  /\ map url (http_log (snd out)) = [decide_url wt; callback_url wt]
  /\ map json (tl (http_log (snd out)))
     = [PDict [("trace_id", PStr "trace-1"); ("content", PStr "hello");
               ("duration_ms", PInt 251); ("tokens_used", PInt 7)]].
Proof.
  cbv zeta.
  destruct (pass_through_posts_decision_then_callback
              Anthropic (provider_answering text_response)
              (session (answers 200 proceed)) PNone [] hello fresh_world
              (PList [PDict [("role", PStr "user"); ("content", PStr "hi")]])
              200 [("action", PStr "proceed"); ("trace_id", PStr "trace-1")]
              text_response (PStr "hello") (PInt 7)
              eq_refl (fun _ _ => eq_refl) ltac:(unfold success; lia)
              eq_refl eq_refl eq_refl eq_refl)
    as (H1 & H2 & _).
  split; [exact H1|]. rewrite H2. split; reflexivity.
Defined.

(** X7: on a pass-through decision, when the provider answers with an
    object the reporter cannot read, the caller still gets that object; no
    callback is posted and one line is printed. *)
Theorem unreadable_response_is_still_returned :
  forall p sdk wt model args kwargs w msgs status d r x,
    gateway_messages p args kwargs = Ok msgs ->
    decides wt w (Response status (Some (PDict d))) ->
    success status ->
    pass_through d ->
    sdk (sdk_log w) (args, kwargs) = Ok r ->
    (reported_content p r = Raise x
     \/ exists c, reported_content p r = Ok c /\ reported_tokens p r = Raise x) ->
    let out := intercepted_call p (sdk_invoke sdk) wt model args kwargs w in
    fst out = Ok r
    /\ http_log (snd out)
       = (http_log w
            ++ [decide_request wt
                  (envelope p wt model args kwargs (pending_metadata w)
                            (pending_session_id w) msgs)])%list
    /\ sdk_log (snd out) = (sdk_log w ++ [(args, kwargs)])%list
    /\ stdout (snd out)
       = (stdout w ++ [("Observ callback error: " ++ exn_str x)%string])%list.
Proof.
  intros p sdk wt model args kwargs w msgs status d r x
         Hn Hd Hok Hp Hr Hx out.
  subst out. rewrite intercepted_call_shape.
  rewrite (adapter_call_normalized _ _ _ _ _ _ _ _ Hn).
  set (env := envelope p wt model args kwargs (pending_metadata w)
                       (pending_session_id w) msgs).
  set (w2 := tick (log_post (decide_request wt env) (consumed w))).
  assert (Hcall : sdk_invoke sdk args kwargs w2 = (Ok r, log_call (args, kwargs) w2)).
  { unfold sdk_invoke. cbn [sdk_log w2 tick log_post consumed]. rewrite Hr. reflexivity. }
  rewrite (through_gateway_pass_ok wt env _ (reporter p) _ (consumed w) status d r
             (log_call (args, kwargs) w2)
             (fun tid resp ms w0 => proj1 (reporter_frame p wt tid resp ms w0))
             (decides_request wt w _ _ Hd) Hok Hp Hcall).
  rewrite (reporter_extraction_fails p wt _ r _ _ x Hx).
  subst w2. repeat split.
Qed.

Lemma unreadable_response_is_still_returned_witness :
  let out := intercepted_call Anthropic
                              (sdk_invoke (provider_answering tool_use_response))
                              (session (answers 200 proceed)) PNone
                              [] hello fresh_world in
  fst out = Ok tool_use_response
  /\ List.length (http_log (snd out)) = 1%nat
  /\ stdout (snd out) = ["Observ callback error: object has no attribute 'text'"].
Proof.
  cbv zeta.
  destruct (unreadable_response_is_still_returned
              Anthropic (provider_answering tool_use_response)
              (session (answers 200 proceed)) PNone [] hello fresh_world
              (PList [PDict [("role", PStr "user"); ("content", PStr "hi")]])
              200 [("action", PStr "proceed"); ("trace_id", PStr "trace-1")]
              tool_use_response (AttributeError "text")
              eq_refl (fun _ _ => eq_refl) ltac:(unfold success; lia)
              eq_refl eq_refl (or_introl eq_refl))
    as (H1 & H2 & _ & H4).
  split; [exact H1|]. split; [rewrite H2; reflexivity | exact H4].
Defined.

(** X8: a [cache_hit] decision that carries no content is served all the
    same, with the empty string as content. *)
Theorem cache_hit_without_content :
  forall p original wt model args kwargs w msgs status d,
    gateway_messages p args kwargs = Ok msgs ->
    decides wt w (Response status (Some (PDict d))) ->
    success status ->
    assoc "action" d = Some (PStr "cache_hit") ->
    assoc "content" d = None ->
    let out := intercepted_call p original wt model args kwargs w in
    exists response,
      fst out = Ok response
      /\ content_path p response = Ok (PStr "")
      /\ sdk_log (snd out) = sdk_log w.
Proof.
  intros p original wt model args kwargs w msgs status d Hn Hd Hok Ha Hc out.
  subst out. rewrite intercepted_call_shape.
  rewrite (adapter_call_normalized _ _ _ _ _ _ _ _ Hn).
  assert (Hact : dict_get d "action" PNone = PStr "cache_hit")
    by (unfold dict_get; rewrite Ha; reflexivity).
  rewrite (through_gateway_cache_hit wt _ _ _ _ (consumed w) status d
             (decides_request wt w _ _ Hd) Hok Hact).
  unfold dict_get. rewrite Hc. eexists. cbn [fst snd].
  split; [reflexivity|]. split; [apply synthesized_content | reflexivity].
Qed.

Lemma cache_hit_without_content_witness :
  exists response,
    fst (intercepted_call Gemini (sdk_invoke stub_provider)
           (session (answers 200 (PDict [("action", PStr "cache_hit")])))
           genai_model [PStr "hi"] [] fresh_world) = Ok response
    /\ content_path Gemini response = Ok (PStr "").
Proof.
  destruct (cache_hit_without_content
              Gemini (sdk_invoke stub_provider)
              (session (answers 200 (PDict [("action", PStr "cache_hit")])))
              genai_model [PStr "hi"] [] fresh_world
              (PList [PDict [("role", PStr "user"); ("content", PStr "hi")]])
              200 [("action", PStr "cache_hit")]
              eq_refl (fun _ _ => eq_refl) ltac:(unfold success; lia)
              eq_refl eq_refl)
    as (response & H1 & H2 & _).
  exists response. split; assumption.
Defined.

(** X9: whatever the gateway and the provider do, an adapter wired to the
    provider SDK invokes it at most twice per intercepted call, each time
    with exactly the caller's positional and keyword arguments. *)
Theorem provider_sees_the_callers_arguments :
  forall p sdk wt model args kwargs w,
    let out := intercepted_call p (sdk_invoke sdk) wt model args kwargs w in
    exists n,
      (n <= 2)%nat
      /\ sdk_log (snd out) = (sdk_log w ++ repeat (args, kwargs) n)%list.
Proof.
  intros p sdk wt model args kwargs w out. subst out.
  rewrite intercepted_call_shape.
  destruct (gateway_messages p args kwargs) as [msgs|e] eqn:Hn.
  2:{ rewrite (adapter_call_not_normalized _ _ _ _ _ _ _ _ Hn).
      exists 0%nat. split; [lia|]. cbn. rewrite app_nil_r. reflexivity. }
  rewrite (adapter_call_normalized _ _ _ _ _ _ _ _ Hn).
  set (env := envelope p wt model args kwargs (pending_metadata w)
                       (pending_session_id w) msgs).
  set (w2 := tick (log_post (decide_request wt env) (consumed w))).
  destruct (decision_cases (http_client wt (http_log w) (decide_request wt env)))
    as [[e Hf] | [(status & d & Ho & Hok & Hact) | (status & d & Ho & Hok & Hp)]].
  - rewrite (through_gateway_failure wt env _ _ _ (consumed w) _ e eq_refl Hf).
    exists 1%nat. split; [lia | reflexivity].
  - rewrite (through_gateway_cache_hit wt env _ _ _ (consumed w) status d Ho Hok Hact).
    exists 0%nat. split; [lia|]. cbn. rewrite app_nil_r. reflexivity.
  - destruct (sdk (sdk_log w) (args, kwargs)) as [r|x] eqn:Hr.
    + assert (Hcall : sdk_invoke sdk args kwargs w2
                      = (Ok r, log_call (args, kwargs) w2)).
      { unfold sdk_invoke. cbn [sdk_log w2 tick log_post consumed].
        rewrite Hr. reflexivity. }
      rewrite (through_gateway_pass_ok wt env _ (reporter p) _ (consumed w)
                 status d r (log_call (args, kwargs) w2)
                 (fun tid resp ms w0 => proj1 (reporter_frame p wt tid resp ms w0))
                 Ho Hok Hp Hcall).
      cbn [snd].
      match goal with
      | |- context [reporter p wt ?tid ?resp ?ms ?w0] =>
          destruct (reporter_frame p wt tid resp ms w0) as (_ & Hs & _)
      end.
      rewrite Hs. exists 1%nat. split; [lia | reflexivity].
    + assert (Hcall : sdk_invoke sdk args kwargs w2
                      = (Raise x, log_call (args, kwargs) w2)).
      { unfold sdk_invoke. cbn [sdk_log w2 tick log_post consumed].
        rewrite Hr. reflexivity. }
      rewrite (through_gateway_pass_raise wt env _ (reporter p) _ (consumed w)
                 status d x (log_call (args, kwargs) w2) Ho Hok Hp Hcall).
      exists 2%nat. split; [lia|]. subst w2. fields.
      rewrite <- app_assoc. reflexivity.
Qed.


(** ** The Gemini normalizer *)

Lemma has_first_index0 (v : pyval) :
  if has_first v then exists x, index0 v = Ok x
  else exists e, index0 v = Raise e.
Proof.
  destruct v; cbn; try (eexists; reflexivity).
  - destruct s; eexists; reflexivity.
  - destruct l; eexists; reflexivity.
Qed.

Lemma convert_item_ok (item : pyval) :
  if item_ok item
  then exists m, GeminiGenerateContentWrapper.convert_item item = Ok m
                 /\ is_gateway_message m
  else exists e, GeminiGenerateContentWrapper.convert_item item = Raise e.
Proof.
  unfold is_gateway_message.
  destruct item;
    try (cbn; eexists; split; [reflexivity | eauto]).
  - (* dict *)
    unfold GeminiGenerateContentWrapper.convert_item, item_ok.
    destruct (assoc "parts" d) as [parts|] eqn:Hp.
    + replace (dict_get d "parts" (PList [PStr ""])) with parts
        by (unfold dict_get; rewrite Hp; reflexivity).
      pose proof (has_first_index0 parts) as H.
      destruct (has_first parts); destruct H as [x Hx]; rewrite Hx; cbn.
      * eexists; split; [reflexivity | eauto].
      * eexists; reflexivity.
    + replace (dict_get d "parts" (PList [PStr ""])) with (PList [PStr ""])
        by (unfold dict_get; rewrite Hp; reflexivity).
      cbn. eexists; split; [reflexivity | eauto].
  - (* object *)
    unfold GeminiGenerateContentWrapper.convert_item, item_ok, hasattr, getattr.
    destruct (assoc "parts" attrs) as [parts|] eqn:Hp.
    2:{ eexists; split; [reflexivity | eauto]. }
    cbn [exc_bind].
    destruct (truthy parts) eqn:Ht.
    2:{ eexists; split; [reflexivity | eauto]. }
    destruct parts as [ | b | z | s | l | d | cls' attrs' | o n ];
      cbn in Ht |- *; try discriminate.
    all: try solve [eexists; reflexivity].
    all: try solve [destruct s; [discriminate|]; eexists; reflexivity].
    all: try solve [destruct d; [discriminate|]; eexists; reflexivity].
    destruct l as [|part rest]; [discriminate|]. cbn.
    destruct part; try (eexists; reflexivity).
    destruct (assoc "text" attrs0); cbn.
    + eexists; split; [reflexivity | eauto].
    + eexists; reflexivity.
Qed.

Lemma exc_map_convert_items (items : list pyval) :
  if forallb item_ok items
  then exists out,
      exc_map GeminiGenerateContentWrapper.convert_item items = Ok out
      /\ List.length out = List.length items
      /\ Forall is_gateway_message out
  else exists e,
      exc_map GeminiGenerateContentWrapper.convert_item items = Raise e.
Proof.
  induction items as [|item items IH]; cbn.
  - exists []. repeat split. constructor.
  - pose proof (convert_item_ok item) as Hi.
    destruct (item_ok item); cbn.
    + destruct Hi as (m & -> & Hm). cbn.
      destruct (forallb item_ok items).
      * destruct IH as (out & -> & Hlen & Hall). cbn.
        exists (m :: out). split; [reflexivity|]. split; [cbn; congruence|].
        constructor; assumption.
      * destruct IH as (e & ->). cbn. eexists; reflexivity.
    + destruct Hi as (e & ->). cbn. eexists; reflexivity.
Qed.

(** X10: the Gemini normalizer raises only on a list prompt, and exactly
    when the list holds an item it cannot handle: a dict whose parts have
    no first element, or an object whose parts are truthy without being a
    list that starts with a part carrying a text.  Otherwise it yields one
    canonical message per item; a prompt that is not a list always yields
    exactly one message. *)
Theorem gemini_normalizer_domain :
  forall prompt,
    match prompt with
    | PList items =>
        if forallb item_ok items
        then exists out,
            GeminiGenerateContentWrapper.gateway_messages_of prompt
            = Ok (PList out)
            /\ List.length out = List.length items
            /\ Forall is_gateway_message out
        else exists e,
            GeminiGenerateContentWrapper.gateway_messages_of prompt = Raise e
    | _ =>
        exists m,
          GeminiGenerateContentWrapper.gateway_messages_of prompt = Ok (PList [m])
          /\ dict_field m "role" = Some (PStr "user")
          /\ dict_field m "content" = Some (PStr (py_str prompt))
    end.
Proof.
  intros prompt.
  destruct prompt; try (eexists; repeat split; reflexivity).
  cbn. pose proof (exc_map_convert_items l) as H.
  destruct (forallb item_ok l).
  - destruct H as (out & -> & Hlen & Hall). exists out. repeat split; assumption.
  - destruct H as (e & ->). exists e. reflexivity.
Qed.

(** X11: which argument the Gemini adapter takes as the prompt: a truthy
    [prompt] keyword, else a truthy [contents] keyword, else the first
    positional argument, else the empty string.  A keyword given as [None],
    as the empty string or as an empty list counts as absent. *)
Theorem gemini_prompt_selection :
  forall args kwargs,
    let prompt := GeminiGenerateContentWrapper.prompt_of args kwargs in
    let given k := match assoc k kwargs with Some v => truthy v | None => false end in
    (forall v, assoc "prompt" kwargs = Some v -> truthy v = true -> prompt = v)
    /\ (forall v, given "prompt" = false ->
                  assoc "contents" kwargs = Some v -> truthy v = true ->
                  prompt = v)
    /\ (forall a rest, given "prompt" = false -> given "contents" = false ->
                       args = a :: rest -> prompt = a)
    /\ (given "prompt" = false -> given "contents" = false -> args = [] ->
        prompt = PStr "").
Proof.
  intros args kwargs prompt given. subst prompt given.
  unfold GeminiGenerateContentWrapper.prompt_of, py_or, dict_get.
  split; [|split; [|split]].
  - intros v Hp Hv. rewrite Hp. rewrite !Hv. reflexivity.
  - intros v Hp Hc Hv. rewrite Hc.
    destruct (assoc "prompt" kwargs) as [x|].
    + rewrite !Hp. rewrite !Hv. reflexivity.
    + cbn [truthy]. rewrite !Hv. reflexivity.
  - intros a rest Hp Hc Ha. subst args.
    destruct (assoc "prompt" kwargs) as [x|];
      destruct (assoc "contents" kwargs) as [y|];
      rewrite ?Hp, ?Hc; cbn [truthy]; rewrite ?Hp, ?Hc; reflexivity.
  - intros Hp Hc Ha. subst args.
    destruct (assoc "prompt" kwargs) as [x|];
      destruct (assoc "contents" kwargs) as [y|];
      rewrite ?Hp, ?Hc; cbn [truthy]; rewrite ?Hp, ?Hc; reflexivity.
Qed.

Lemma gemini_prompt_selection_witness :
  GeminiGenerateContentWrapper.prompt_of
    [PStr "positional"] [("prompt", PStr ""); ("contents", PStr "kw")]
  = PStr "kw"
  /\ GeminiGenerateContentWrapper.prompt_of
       [PStr "positional"] [("prompt", PNone); ("contents", PList [])]
     = PStr "positional"
  /\ GeminiGenerateContentWrapper.prompt_of [] [("prompt", PStr "")] = PStr "".
Proof.
  destruct (gemini_prompt_selection
              [PStr "positional"] [("prompt", PStr ""); ("contents", PStr "kw")])
    as (_ & H2 & _).
  destruct (gemini_prompt_selection
              [PStr "positional"] [("prompt", PNone); ("contents", PList [])])
    as (_ & _ & H3 & _).
  destruct (gemini_prompt_selection [] [("prompt", PStr "")])
    as (_ & _ & _ & H4).
  split; [exact (H2 (PStr "kw") eq_refl eq_refl eq_refl)|].
  split; [exact (H3 _ _ eq_refl eq_refl eq_refl)|].
  exact (H4 eq_refl eq_refl eq_refl).
Defined.


(** ** The reporters, family by family *)

Lemma getattr_hasattr (v : pyval) (name : string) (x : pyval) :
  getattr v name = Ok x -> hasattr v name = true.
Proof.
  unfold getattr, hasattr. destruct v; try discriminate.
  destruct (assoc name attrs); [reflexivity | discriminate].
Qed.

Lemma getattr_default_present (v : pyval) (name : string) (x d : pyval) :
  getattr v name = Ok x -> getattr_default v name d = x.
Proof. unfold getattr_default. intros ->. reflexivity. Qed.

Lemma getattr_default_absent (v : pyval) (name : string) (d : pyval) :
  hasattr v name = false -> getattr_default v name d = d.
Proof.
  unfold getattr_default, getattr, hasattr. destruct v; try reflexivity.
  destruct (assoc name attrs); [discriminate | reflexivity].
Qed.

Lemma nonempty_length_positive {A} (x : A) (rest : list A) :
  (Z.of_nat (List.length (x :: rest)) >? 0) = true.
Proof. apply Z.gtb_lt. cbn [List.length]. lia. Qed.

(** X12: the Anthropic reporter.  [tokens_used] is [input_tokens] plus
    [output_tokens], each counted as 0 when the usage object lacks it, and
    0 when the response has no usage; [content] is the text of the first
    content block, the empty string when there is no block; a first block
    without a text makes the extraction raise. *)
Theorem anthropic_callback_extraction :
  forall response,
    (forall usage i o,
        getattr response "usage" = Ok usage ->
        getattr usage "input_tokens" = Ok (PInt i) ->
        getattr usage "output_tokens" = Ok (PInt o) ->
        anthropic_tokens response = Ok (PInt (i + o)))
    /\ (forall usage i,
           getattr response "usage" = Ok usage ->
           getattr usage "input_tokens" = Ok (PInt i) ->
           hasattr usage "output_tokens" = false ->
           anthropic_tokens response = Ok (PInt i))
    /\ (forall usage,
           getattr response "usage" = Ok usage ->
           hasattr usage "input_tokens" = false ->
           hasattr usage "output_tokens" = false ->
           anthropic_tokens response = Ok (PInt 0))
    /\ (hasattr response "usage" = false ->
        anthropic_tokens response = Ok (PInt 0))
    /\ (forall block rest text,
           getattr response "content" = Ok (PList (block :: rest)) ->
           getattr block "text" = Ok text ->
           anthropic_content response = Ok text)
    /\ (forall block rest,
           getattr response "content" = Ok (PList (block :: rest)) ->
           hasattr block "text" = false ->
           anthropic_content response = Raise (AttributeError "text"))
    /\ (getattr response "content" = Ok (PList []) ->
        anthropic_content response = Ok (PStr ""))
    /\ (hasattr response "content" = false ->
        anthropic_content response = Ok (PStr "")).
Proof.
  intros response. repeat split.
  - intros usage i o Hu Hi Ho. unfold anthropic_tokens.
    rewrite (getattr_hasattr _ _ _ Hu), Hu. cbn [exc_bind].
    rewrite (getattr_default_present _ _ _ _ Hi),
            (getattr_default_present _ _ _ _ Ho). reflexivity.
  - intros usage i Hu Hi Ho. unfold anthropic_tokens.
    rewrite (getattr_hasattr _ _ _ Hu), Hu. cbn [exc_bind].
    rewrite (getattr_default_present _ _ _ _ Hi),
            (getattr_default_absent _ _ _ Ho).
    cbn. rewrite Z.add_0_r. reflexivity.
  - intros usage Hu Hi Ho. unfold anthropic_tokens.
    rewrite (getattr_hasattr _ _ _ Hu), Hu. cbn [exc_bind].
    rewrite (getattr_default_absent _ _ _ Hi),
            (getattr_default_absent _ _ _ Ho). reflexivity.
  - intros Hno. unfold anthropic_tokens. rewrite Hno. reflexivity.
  - intros block rest text Hc Ht. unfold anthropic_content.
    rewrite (getattr_hasattr _ _ _ Hc), Hc. cbn [exc_bind py_len].
    rewrite nonempty_length_positive. cbn [index0 exc_bind]. exact Ht.
  - intros block rest Hc Hno. unfold anthropic_content.
    rewrite (getattr_hasattr _ _ _ Hc), Hc. cbn [exc_bind py_len].
    rewrite nonempty_length_positive. cbn [index0 exc_bind].
    unfold hasattr in Hno. unfold getattr. destruct block; try reflexivity.
    destruct (assoc "text" attrs); [discriminate | reflexivity].
  - intros Hc. unfold anthropic_content.
    rewrite (getattr_hasattr _ _ _ Hc), Hc. reflexivity.
  - intros Hno. unfold anthropic_content. rewrite Hno. reflexivity.
Qed.

Lemma anthropic_callback_extraction_witness :
  anthropic_tokens text_response = Ok (PInt 7)
  /\ anthropic_tokens response_input_only = Ok (PInt 12)
  /\ anthropic_content text_response = Ok (PStr "hello")
  /\ anthropic_content tool_use_response = Raise (AttributeError "text")
  /\ anthropic_content response_input_only = Ok (PStr "").
Proof.
  destruct (anthropic_callback_extraction text_response)
    as (Hsum & _ & _ & _ & Htext & _).
  destruct (anthropic_callback_extraction response_input_only)
    as (_ & Hin & _ & _ & _ & _ & Hempty & _).
  destruct (anthropic_callback_extraction tool_use_response)
    as (_ & _ & _ & _ & _ & Hno & _).
  split; [exact (Hsum _ 3 4 eq_refl eq_refl eq_refl)|].
  split; [exact (Hin _ 12 eq_refl eq_refl eq_refl)|].
  split; [exact (Htext _ _ _ eq_refl eq_refl)|].
  split; [exact (Hno _ _ eq_refl eq_refl)|].
  exact (Hempty eq_refl).
Defined.

(** X13: the Gemini reporter.  A [text] attribute on the response is the
    content, whatever the candidates hold; without it the content is the
    text of the first part of the first candidate, the empty string when
    there is no candidate.  [tokens_used] is [total_token_count] when the
    usage metadata has it, else the sum of [prompt_token_count] and
    [candidates_token_count] when it has both, else 0. *)
Theorem gemini_callback_extraction :
  forall response,
    (forall text,
        getattr response "text" = Ok text ->
        gemini_content response = Ok text)
    /\ (forall candidate rest content part parts text,
           hasattr response "text" = false ->
           getattr response "candidates" = Ok (PList (candidate :: rest)) ->
           getattr candidate "content" = Ok content ->
           getattr content "parts" = Ok (PList (part :: parts)) ->
           getattr part "text" = Ok text ->
           gemini_content response = Ok text)
    /\ (hasattr response "text" = false ->
        getattr response "candidates" = Ok (PList []) ->
        gemini_content response = Ok (PStr ""))
    /\ (hasattr response "text" = false ->
        hasattr response "candidates" = false ->
        gemini_content response = Ok (PStr ""))
    /\ (forall usage total,
           getattr response "usage_metadata" = Ok usage ->
           getattr usage "total_token_count" = Ok total ->
           gemini_tokens response = Ok total)
    /\ (forall usage p c,
           getattr response "usage_metadata" = Ok usage ->
           hasattr usage "total_token_count" = false ->
           getattr usage "prompt_token_count" = Ok (PInt p) ->
           getattr usage "candidates_token_count" = Ok (PInt c) ->
           gemini_tokens response = Ok (PInt (p + c)))
    /\ (forall usage,
           getattr response "usage_metadata" = Ok usage ->
           hasattr usage "total_token_count" = false ->
           hasattr usage "prompt_token_count"
           && hasattr usage "candidates_token_count" = false ->
           gemini_tokens response = Ok (PInt 0))
    /\ (hasattr response "usage_metadata" = false ->
        gemini_tokens response = Ok (PInt 0)).
Proof.
  intros response. repeat split.
  - intros text Ht. unfold gemini_content.
    rewrite (getattr_hasattr _ _ _ Ht). exact Ht.
  - intros candidate rest content part parts text Hno Hc Hcont Hparts Ht.
    unfold gemini_content.
    rewrite Hno, (getattr_hasattr _ _ _ Hc), Hc. cbn [exc_bind py_len].
    rewrite nonempty_length_positive. cbn [index0 exc_bind].
    rewrite (getattr_hasattr _ _ _ Hcont), Hcont. cbn [exc_bind].
    rewrite (getattr_hasattr _ _ _ Hparts), Hparts. cbn [exc_bind py_len].
    rewrite nonempty_length_positive. cbn [index0 exc_bind]. exact Ht.
  - intros Hno Hc. unfold gemini_content.
    rewrite Hno, (getattr_hasattr _ _ _ Hc), Hc. reflexivity.
  - intros Hno Hc. unfold gemini_content. rewrite Hno, Hc. reflexivity.
  - intros usage total Hu Ht. unfold gemini_tokens.
    rewrite (getattr_hasattr _ _ _ Hu), Hu. cbn [exc_bind].
    rewrite (getattr_hasattr _ _ _ Ht). exact Ht.
  - intros usage p c Hu Hno Hp Hc. unfold gemini_tokens.
    rewrite (getattr_hasattr _ _ _ Hu), Hu. cbn [exc_bind].
    rewrite Hno, (getattr_hasattr _ _ _ Hp), (getattr_hasattr _ _ _ Hc), Hp, Hc.
    reflexivity.
  - intros usage Hu Hno Hpart. unfold gemini_tokens.
    rewrite (getattr_hasattr _ _ _ Hu), Hu. cbn [exc_bind].
    rewrite Hno, Hpart. reflexivity.
  - intros Hno. unfold gemini_tokens. rewrite Hno. reflexivity.
Qed.

Lemma gemini_callback_extraction_witness :
  gemini_content gemini_candidates_response = Ok (PStr "hi")
  /\ gemini_tokens gemini_candidates_response = Ok (PInt 5)
  /\ gemini_content (GeminiGenerateContentWrapper.cached_response (PStr "X"))
     = Ok (PStr "X")
  /\ gemini_tokens (GeminiGenerateContentWrapper.cached_response (PStr "X"))
     = Ok (PInt 0).
Proof.
  destruct (gemini_callback_extraction gemini_candidates_response)
    as (_ & Hcand & _ & _ & _ & Hsum & _).
  destruct (gemini_callback_extraction
              (GeminiGenerateContentWrapper.cached_response (PStr "X")))
    as (Htext & _ & _ & _ & Htotal & _).
  split; [exact (Hcand _ _ _ _ _ _ eq_refl eq_refl eq_refl eq_refl eq_refl)|].
  split; [exact (Hsum _ 2 3 eq_refl eq_refl eq_refl eq_refl)|].
  split; [exact (Htext _ eq_refl)|].
  exact (Htotal _ _ eq_refl eq_refl).
Defined.

(** X14: the Mistral reporter posts what the two extractions give; it
    counts no tokens when the usage object has neither a total nor both
    parts, so a lone [prompt_tokens] is dropped, and it sends the empty
    string for a message whose content is [None] or empty. *)
Theorem mistral_callback_extraction :
  forall wt trace_id response duration_ms w,
    (forall content tokens,
        openai_content response = Ok content ->
        openai_tokens response = Ok tokens ->
        http_log (snd (_send_callback_mistral wt trace_id response duration_ms w))
        = (http_log w
             ++ [callback_request wt trace_id content duration_ms tokens])%list)
    /\ (forall usage,
           getattr response "usage" = Ok usage ->
           hasattr usage "total_tokens" = false ->
           hasattr usage "prompt_tokens" && hasattr usage "completion_tokens"
           = false ->
           openai_tokens response = Ok (PInt 0))
    /\ (forall choice rest message c,
           getattr response "choices" = Ok (PList (choice :: rest)) ->
           getattr choice "message" = Ok message ->
           getattr message "content" = Ok c ->
           truthy c = false ->
           openai_content response = Ok (PStr ""))
    /\ (forall choice rest,
           getattr response "choices" = Ok (PList (choice :: rest)) ->
           hasattr choice "message" = false ->
           openai_content response = Raise (AttributeError "message")).
Proof.
  intros wt trace_id response duration_ms w. repeat split.
  - intros content tokens Hc Ht. unfold _send_callback_mistral.
    rewrite Hc, Ht.
    apply (reporter_posts wt content tokens
             (fun c t => callback_request wt trace_id c duration_ms t)).
  - intros usage Hu Hno Hpart. unfold openai_tokens.
    rewrite (getattr_hasattr _ _ _ Hu), Hu. cbn [exc_bind].
    rewrite Hno, Hpart. reflexivity.
  - intros choice rest message c Hch Hm Hc Hfalsy. unfold openai_content.
    rewrite (getattr_hasattr _ _ _ Hch), Hch. cbn [exc_bind py_len].
    rewrite nonempty_length_positive. cbn [index0 exc_bind].
    rewrite Hm. cbn [exc_bind]. rewrite (getattr_hasattr _ _ _ Hc), Hc.
    cbn [exc_bind]. unfold py_or. rewrite Hfalsy. reflexivity.
  - intros choice rest Hch Hno. unfold openai_content.
    rewrite (getattr_hasattr _ _ _ Hch), Hch. cbn [exc_bind py_len].
    rewrite nonempty_length_positive. cbn [index0 exc_bind].
    unfold hasattr in Hno. unfold getattr at 1. destruct choice; try reflexivity.
    destruct (assoc "message" attrs); [discriminate | reflexivity].
Qed.

Lemma mistral_callback_extraction_witness :
  openai_tokens response_prompt_only = Ok (PInt 0)
  /\ openai_content response_prompt_only = Ok (PStr "")
  /\ openai_content response_without_message = Raise (AttributeError "message")
  /\ http_log (snd (_send_callback_mistral (session refused) PNone
                      response_prompt_only 9 fresh_world))
     = [callback_request (session refused) PNone (PStr "") 9 (PInt 0)].
Proof.
  destruct (mistral_callback_extraction
              (session refused) PNone response_prompt_only 9 fresh_world)
    as (Hpost & Hpart & Hnone & _).
  destruct (mistral_callback_extraction
              (session refused) PNone response_without_message 9 fresh_world)
    as (_ & _ & _ & Hmsg).
  split; [exact (Hpart _ eq_refl eq_refl eq_refl)|].
  split; [exact (Hnone _ _ _ PNone eq_refl eq_refl eq_refl eq_refl)|].
  split; [exact (Hmsg _ _ eq_refl eq_refl)|].
  exact (Hpost (PStr "") (PInt 0) eq_refl eq_refl).
Defined.

Lemma reporter_request_shape (wt : Observ) (content tokens : exc pyval)
      (trace_id : pyval) (duration_ms : Z) (w : world) :
  posts_at_most_one_callback wt trace_id duration_ms
    (try_except
       (c <- lift content ;;
        t <- lift tokens ;;
        post (http_client wt) (callback_request wt trace_id c duration_ms t) ;;;
        ret tt)
       (fun e => print ("Observ callback error: " ++ exn_str e)) w)
    w.
Proof.
  unfold posts_at_most_one_callback. run.
  destruct content as [c|e]; [|left; reflexivity].
  destruct tokens as [t|e]; [|left; reflexivity].
  destruct (http_client wt (http_log w) _);
    right; exists c, t; reflexivity.
Qed.

(** X15: a reporter posts nothing or one request; that request goes to the
    callback endpoint with a timeout of 5 seconds and without any header,
    so without the bearer token, and its body is the four-key payload with
    the trace id and the duration it was given. *)
Theorem callback_request_shape :
  forall wt trace_id response duration_ms w,
    posts_at_most_one_callback wt trace_id duration_ms
      (_send_callback wt trace_id response duration_ms w) w
    /\ posts_at_most_one_callback wt trace_id duration_ms
         (_send_callback_openai wt trace_id response duration_ms w) w
    /\ posts_at_most_one_callback wt trace_id duration_ms
         (_send_callback_gemini wt trace_id response duration_ms w) w
    /\ posts_at_most_one_callback wt trace_id duration_ms
         (_send_callback_mistral wt trace_id response duration_ms w) w.
Proof.
  intros. split; [|split; [|split]]; apply reporter_request_shape.
Qed.

(** X16: when a reporter cannot read the response, it posts nothing: the
    only trace of the call is the printed error. *)
Theorem unreadable_response_posts_no_callback :
  forall p wt trace_id response duration_ms w x,
    (reported_content p response = Raise x
     \/ exists c, reported_content p response = Ok c
                  /\ reported_tokens p response = Raise x) ->
    reporter p wt trace_id response duration_ms w
    = (Ok tt, log_line ("Observ callback error: " ++ exn_str x) w).
Proof.
  intros p wt trace_id response duration_ms w x [Hc | (c & Hc & Ht)];
    rewrite reporter_shape; run.
  - rewrite Hc. reflexivity.
  - rewrite Hc, Ht. reflexivity.
Qed.

Lemma unreadable_response_posts_no_callback_witness :
  let out := _send_callback_mistral (session (answers 200 PNone)) (PStr "trace-1")
                                    response_without_message 3 fresh_world in
  fst out = Ok tt
  /\ http_log (snd out) = []
  /\ stdout (snd out) = ["Observ callback error: object has no attribute 'message'"].
Proof.
  cbv zeta.
  change (_send_callback_mistral (session (answers 200 PNone)) (PStr "trace-1")
                                 response_without_message 3 fresh_world)
    with (reporter Mistral (session (answers 200 PNone)) (PStr "trace-1")
                   response_without_message 3 fresh_world).
  rewrite (unreadable_response_posts_no_callback
             Mistral (session (answers 200 PNone)) (PStr "trace-1")
             response_without_message 3 fresh_world (AttributeError "message")
             (or_introl eq_refl)).
  repeat split.
Defined.

(** X17: a synthesized response read by its own family's reporter: the
    tokens are 0 for every provider, and the content is the cached content
    (for Mistral, the empty string when the cached content is falsy). *)
Theorem synthesized_response_reads_back :
  forall p model_name X,
    reported_tokens p (synthesized p model_name X) = Ok (PInt 0)
    /\ reported_content p (synthesized p model_name X)
       = Ok (match p with
             | Mistral => if truthy X then X else PStr ""
             | _ => X
             end).
Proof. intros p model_name X. destruct p; split; reflexivity. Qed.


(** ** The wrap entry points, when they accept *)

Lemma getattr_setattr_same (v : pyval) (name : string) (x : pyval) (v' : pyval) :
  setattr v name x = Ok v' -> getattr v' name = Ok x.
Proof.
  destruct v; try discriminate. cbn. intros [= <-]. cbn.
  rewrite assoc_set_same. reflexivity.
Qed.

Lemma getattr_setattr_other (v : pyval) (name k : string) (x : pyval) (v' : pyval) :
  setattr v name x = Ok v' -> k <> name -> getattr v' k = getattr v k.
Proof.
  destruct v; try discriminate. cbn. intros [= <-] Hne. cbn.
  rewrite (assoc_set_other _ _ _ _ Hne). reflexivity.
Qed.

Lemma isinstance_setattr (v : pyval) (name : string) (x : pyval) (v' : pyval)
      (C : string) :
  setattr v name x = Ok v' -> isinstance v' C = isinstance v C.
Proof. destruct v; try discriminate. cbn. intros [= <-]. reflexivity. Qed.

Lemma setattr_object (v : pyval) (name k : string) (x y : pyval) :
  getattr v k = Ok y -> exists v', setattr v name x = Ok v'.
Proof. destruct v; try discriminate. intros _. eexists. reflexivity. Qed.

Lemma wrap_chat_completions_result (wrapper : ObservWrap.constructor)
      wt client chat completions :
  getattr client "chat" = Ok chat ->
  getattr chat "completions" = Ok completions ->
  exists client' chat',
    ObservWrap.wrap_chat_completions wrapper wt client = Ok client'
    /\ setattr chat "completions" (wrapper completions wt) = Ok chat'
    /\ setattr client "chat" chat' = Ok client'.
Proof.
  intros Hchat Hcomp. unfold ObservWrap.wrap_chat_completions.
  rewrite Hchat. cbn [exc_bind]. rewrite Hcomp. cbn [exc_bind].
  destruct (setattr_object chat "completions" "completions"
              (wrapper completions wt) completions Hcomp) as (chat' & Hset).
  rewrite Hset. cbn [exc_bind].
  destruct (setattr_object client "chat" "chat" chat' chat Hchat) as (client' & Hset').
  rewrite Hset'. exists client', chat'. repeat split; assumption.
Qed.

(** X18: the OpenAI, xAI, Mistral and OpenRouter entry points, given an
    instance of their client type with the package installed, a [chat]
    attribute on it and a [completions] attribute on that, return the
    client with [chat.completions] replaced by what the entry point's
    adapter constructor builds from the former [chat.completions] and the
    session; the client's class and every other attribute of the client
    and of its [chat] object are as before.  For Mistral, whose adapter
    class is embedded above, the new [chat.completions] is a
    [MistralChatCompletionsWrapper] that holds the former one and an empty
    chained state. *)
Theorem chat_completions_entry_wraps_in_place :
  forall A e build wt installed client chat completions,
    chat_adapter A e = Some build ->
    installed (package e) = true ->
    isinstance client (client_type e) = true ->
    getattr client "chat" = Ok chat ->
    getattr chat "completions" = Ok completions ->
    (exists client' chat',
        wrap A e wt installed client = Ok client'
        /\ getattr client' "chat" = Ok chat'
        /\ getattr chat' "completions" = Ok (build completions wt)
        /\ isinstance client' (client_type e) = true
        /\ (forall k, k <> "chat" -> getattr client' k = getattr client k)
        /\ (forall k, k <> "completions" -> getattr chat' k = getattr chat k))
    /\ (e = WrapMistral ->
        isinstance (build completions wt) "MistralChatCompletionsWrapper" = true
        /\ getattr (build completions wt) "_original_completions" = Ok completions
        /\ getattr (build completions wt) "_metadata" = Ok (PDict [])
        /\ getattr (build completions wt) "_session_id" = Ok PNone).
Proof.
  intros A e build wt installed client chat completions
         Hb Hpkg Hty Hchat Hcomp.
  split.
  - destruct (wrap_chat_completions_result build wt client chat
                completions Hchat Hcomp) as (client' & chat' & Hw & Hs1 & Hs2).
    exists client', chat'.
    split.
    { destruct e; try discriminate Hb; injection Hb as <-;
        cbn [wrap package client_type] in *;
        [ unfold ObservWrap.openai | unfold ObservWrap.xai
        | unfold ObservWrap.mistral | unfold ObservWrap.openrouter ];
        unfold ObservWrap.import; rewrite Hpkg; cbn [exc_bind];
        rewrite Hty, Hw; reflexivity. }
    split; [exact (getattr_setattr_same _ _ _ _ Hs2)|].
    split; [exact (getattr_setattr_same _ _ _ _ Hs1)|].
    split; [rewrite (isinstance_setattr _ _ _ _ _ Hs2); exact Hty|].
    split.
    + intros k Hk. exact (getattr_setattr_other _ _ _ _ _ Hs2 Hk).
    + intros k Hk. exact (getattr_setattr_other _ _ _ _ _ Hs1 Hk).
  - intros ->. cbn in Hb. injection Hb as <-. repeat split.
Qed.

Lemma chat_completions_entry_wraps_in_place_witness :
  exists client' chat' wrapper,
    ObservWrap.mistral (session refused) all_installed mistral_client = Ok client'
    /\ getattr client' "chat" = Ok chat'
    /\ getattr chat' "completions" = Ok wrapper
    /\ getattr wrapper "_original_completions" = Ok (PObj ["Completions"] [])
    /\ getattr client' "embeddings" = Ok (PObj ["Embeddings"] [])
    /\ getattr chat' "stream" = Ok (PMethod "Chat" "stream").
Proof.
  destruct (chat_completions_entry_wraps_in_place
              stub_adapters WrapMistral
              (ObservWrap.new_wrapper "MistralChatCompletionsWrapper"
                                      "_original_completions")
              (session refused) all_installed mistral_client
              (PObj ["Chat"] [("completions", PObj ["Completions"] []);
                              ("stream", PMethod "Chat" "stream")])
              (PObj ["Completions"] [])
              eq_refl eq_refl eq_refl eq_refl eq_refl)
    as [(client' & chat' & H1 & H2 & H3 & _ & H5 & H6) Hm].
  destruct (Hm eq_refl) as (_ & H7 & _).
  exists client', chat',
    (ObservWrap.new_wrapper "MistralChatCompletionsWrapper"
                            "_original_completions" (PObj ["Completions"] [])
                            (session refused)).
  split; [exact H1|]. split; [exact H2|]. split; [exact H3|]. split; [exact H7|].
  split.
  - rewrite (H5 "embeddings"); [reflexivity | discriminate].
  - rewrite (H6 "stream"); [reflexivity | discriminate].
Defined.

(** X19: the Anthropic entry point wraps any object that has a [messages]
    attribute, whatever its class and whatever is installed: it returns the
    object with [messages] replaced by a fresh adapter that holds the
    former [messages] and an empty chained state, the other attributes as
    before.  On anything else it raises an attribute error. *)
Theorem anthropic_entry_wraps_any_object_with_messages :
  forall wt installed client,
    (forall messages,
        getattr client "messages" = Ok messages ->
        exists client' wrapper,
          ObservWrap.anthropic wt installed client = Ok client'
          /\ getattr client' "messages" = Ok wrapper
          /\ isinstance wrapper "AnthropicMessagesWrapper" = true
          /\ getattr wrapper "_original_messages" = Ok messages
          /\ getattr wrapper "_metadata" = Ok (PDict [])
          /\ getattr wrapper "_session_id" = Ok PNone
          /\ (forall C, isinstance client' C = isinstance client C)
          /\ (forall k, k <> "messages" -> getattr client' k = getattr client k))
    /\ (hasattr client "messages" = false ->
        ObservWrap.anthropic wt installed client
        = Raise (AttributeError "messages")).
Proof.
  intros wt installed client. split.
  - intros messages Hm. unfold ObservWrap.anthropic. rewrite Hm. cbn [exc_bind].
    destruct (setattr_object client "messages" "messages"
                (ObservWrap.new_wrapper "AnthropicMessagesWrapper"
                                        "_original_messages" messages wt)
                messages Hm) as (client' & Hset).
    rewrite Hset. eexists _, _. split; [reflexivity|].
    split; [exact (getattr_setattr_same _ _ _ _ Hset)|].
    split; [reflexivity|]. split; [reflexivity|].
    split; [reflexivity|]. split; [reflexivity|].
    split.
    + intros C. exact (isinstance_setattr _ _ _ _ C Hset).
    + intros k Hk. exact (getattr_setattr_other _ _ _ _ _ Hset Hk).
  - intros Hno. unfold ObservWrap.anthropic, getattr.
    unfold hasattr in Hno. destruct client; try reflexivity.
    destruct (assoc "messages" attrs); [discriminate | reflexivity].
Qed.

Lemma anthropic_entry_wraps_any_object_with_messages_witness :
  (exists client' wrapper,
      ObservWrap.anthropic (session refused) none_installed
                           (PObj ["dict_like"] [("messages", PInt 3)])
      = Ok client'
      /\ getattr client' "messages" = Ok wrapper
      /\ getattr wrapper "_original_messages" = Ok (PInt 3))
  /\ ObservWrap.anthropic (session refused) all_installed genai_model
     = Raise (AttributeError "messages").
Proof.
  destruct (anthropic_entry_wraps_any_object_with_messages
              (session refused) none_installed
              (PObj ["dict_like"] [("messages", PInt 3)])) as [Hyes _].
  destruct (anthropic_entry_wraps_any_object_with_messages
              (session refused) all_installed genai_model) as [_ Hno].
  split.
  - destruct (Hyes (PInt 3) eq_refl) as (client' & wrapper & H1 & H2 & _ & H4 & _).
    exists client', wrapper. repeat split; assumption.
  - exact (Hno eq_refl).
Defined.

(** ** The Gemini entry point and the model it returns *)

Lemma gemini_entry_result wt installed model model' :
  ObservWrap.gemini wt installed model = Ok model' ->
  exists m1 m2,
    installed "google.generativeai" = true
    /\ isinstance model "google.generativeai.GenerativeModel" = true
    /\ setattr model "generate_content"
               (PMethod "GeminiGenerateContentWrapper" "generate_content") = Ok m1
    /\ setattr m1 "with_metadata"
               (PMethod "GeminiGenerateContentWrapper" "with_metadata") = Ok m2
    /\ setattr m2 "with_session_id"
               (PMethod "GeminiGenerateContentWrapper" "with_session_id")
       = Ok model'.
Proof.
  unfold ObservWrap.gemini, ObservWrap.import.
  destruct (installed "google.generativeai"); [|discriminate].
  cbn [exc_bind].
  destruct (isinstance model "google.generativeai.GenerativeModel") eqn:Hty;
    [|discriminate].
  destruct model; try discriminate Hty. cbn. intros [= <-].
  eexists _, _. repeat split.
Qed.

Lemma gemini_entry_patches wt installed model model' :
  ObservWrap.gemini wt installed model = Ok model' -> gemini_patched model'.
Proof.
  intros H. destruct (gemini_entry_result _ _ _ _ H)
    as (m1 & m2 & _ & _ & H1 & H2 & H3).
  pose proof (getattr_setattr_same _ _ _ _ H1) as G1.
  rewrite <- (getattr_setattr_other _ _ "generate_content" _ _ H2) in G1
    by discriminate.
  rewrite <- (getattr_setattr_other _ _ "generate_content" _ _ H3) in G1
    by discriminate.
  unfold gemini_patched. unfold getattr in G1.
  destruct model'; try discriminate.
  destruct (assoc "generate_content" attrs); [|discriminate].
  congruence.
Qed.

(** X20: the Gemini entry point, when it accepts a model, stores the
    adapter's three bound methods on the model itself, under the names
    [generate_content], [with_metadata] and [with_session_id]; the class of
    the model and every other attribute, [_model_name] among them, stay as
    they were.  It accepts exactly when the package is installed and the
    model is a [GenerativeModel]. *)
Theorem gemini_entry_patches_the_instance :
  forall wt installed model model',
    ObservWrap.gemini wt installed model = Ok model' ->
    installed "google.generativeai" = true
    /\ isinstance model "google.generativeai.GenerativeModel" = true
    /\ getattr model' "generate_content"
       = Ok (PMethod "GeminiGenerateContentWrapper" "generate_content")
    /\ getattr model' "with_metadata"
       = Ok (PMethod "GeminiGenerateContentWrapper" "with_metadata")
    /\ getattr model' "with_session_id"
       = Ok (PMethod "GeminiGenerateContentWrapper" "with_session_id")
    /\ (forall C, isinstance model' C = isinstance model C)
    /\ (forall k, ~ In k gemini_patched_names ->
                  getattr model' k = getattr model k).
Proof.
  intros wt installed model model' H.
  destruct (gemini_entry_result _ _ _ _ H)
    as (m1 & m2 & Hpkg & Hty & H1 & H2 & H3).
  split; [exact Hpkg|]. split; [exact Hty|].
  split.
  { rewrite (getattr_setattr_other _ _ "generate_content" _ _ H3) by discriminate.
    rewrite (getattr_setattr_other _ _ "generate_content" _ _ H2) by discriminate.
    exact (getattr_setattr_same _ _ _ _ H1). }
  split.
  { rewrite (getattr_setattr_other _ _ "with_metadata" _ _ H3) by discriminate.
    exact (getattr_setattr_same _ _ _ _ H2). }
  split; [exact (getattr_setattr_same _ _ _ _ H3)|].
  split.
  - intros C. rewrite (isinstance_setattr _ _ _ _ C H3),
                      (isinstance_setattr _ _ _ _ C H2).
    exact (isinstance_setattr _ _ _ _ C H1).
  - intros k Hk. unfold gemini_patched_names in Hk. cbn in Hk.
    rewrite (getattr_setattr_other _ _ k _ _ H3) by (intros ->; tauto).
    rewrite (getattr_setattr_other _ _ k _ _ H2) by (intros ->; tauto).
    apply (getattr_setattr_other _ _ k _ _ H1). intros ->. tauto.
Qed.

Lemma gemini_entry_patches_the_instance_witness :
  getattr wrapped_genai_model "generate_content"
  = Ok (PMethod "GeminiGenerateContentWrapper" "generate_content")
  /\ getattr wrapped_genai_model "_model_name" = Ok (PStr "models/gemini-pro")
  /\ isinstance wrapped_genai_model "google.generativeai.GenerativeModel" = true.
Proof.
  destruct (gemini_entry_patches_the_instance
              (session refused) all_installed genai_model wrapped_genai_model
              eq_refl) as (_ & _ & H1 & _ & _ & H2 & H3).
  split; [exact H1|]. split.
  - rewrite (H3 "_model_name"); [reflexivity|].
    cbn. intros [E|[E|[E|[]]]]; discriminate E.
  - rewrite H2. reflexivity.
Defined.

Lemma patched_model_call sdk wt depth model :
  gemini_patched model ->
  model_generate_content sdk wt (S depth) model
  = intercepted_call Gemini (model_generate_content sdk wt depth model) wt model.
Proof.
  unfold gemini_patched. destruct model; try contradiction.
  intros H. cbn. rewrite H. reflexivity.
Qed.

Lemma patched_model_at_the_limit sdk wt model args kwargs w :
  gemini_patched model ->
  model_generate_content sdk wt 0 model args kwargs w = (Raise RecursionError, w).
Proof.
  unfold gemini_patched. destruct model; try contradiction.
  intros H. cbn. rewrite H. reflexivity.
Qed.

(** What a call on a patched model can do: it never touches the provider's
    log, and a response it returns is a synthesized one. *)
Lemma patched_model_invariant sdk wt model args kwargs :
  gemini_patched model ->
  forall depth w,
    let out := model_generate_content sdk wt depth model args kwargs w in
    sdk_log (snd out) = sdk_log w
    /\ (forall r, fst out = Ok r ->
                  exists c, r = GeminiGenerateContentWrapper.cached_response c).
Proof.
  intros Hp. induction depth as [|depth IH]; intros w; cbv zeta.
  - rewrite (patched_model_at_the_limit _ _ _ _ _ _ Hp).
    split; [reflexivity | discriminate].
  - rewrite (patched_model_call _ _ _ _ Hp), intercepted_call_shape.
    set (original := model_generate_content sdk wt depth model) in *.
    destruct (gateway_messages Gemini args kwargs) as [msgs|e] eqn:Hn.
    2:{ rewrite (adapter_call_not_normalized _ _ _ _ _ _ _ _ Hn).
        split; [reflexivity | discriminate]. }
    rewrite (adapter_call_normalized _ _ _ _ _ _ _ _ Hn).
    set (env := envelope Gemini wt model args kwargs (pending_metadata w)
                         (pending_session_id w) msgs).
    set (w2 := tick (log_post (decide_request wt env) (consumed w))).
    destruct (decision_cases (http_client wt (http_log w) (decide_request wt env)))
      as [[e Hf] | [(status & d & Ho & Hok & Hact) | (status & d & Ho & Hok & Hpass)]].
    + rewrite (through_gateway_failure wt env _ _ _ (consumed w) _ e eq_refl Hf).
      destruct (IH (log_line ("Observ gateway error: " ++ exn_str e)
                             (log_post (decide_request wt env) (consumed w))))
        as [H1 H2].
      split; [rewrite H1; reflexivity | exact H2].
    + rewrite (through_gateway_cache_hit wt env _ _ _ (consumed w) status d
                 Ho Hok Hact).
      split; [reflexivity|]. cbn [fst]. intros r [= <-]. eexists. reflexivity.
    + destruct (original args kwargs w2) as [[r|x] w3] eqn:E.
      * pose proof (IH w2) as [H1 H2]. fold original in H1, H2.
        rewrite E in H1, H2. cbn [fst snd] in H1, H2.
        rewrite (through_gateway_pass_ok wt env _ (reporter Gemini) _ (consumed w)
                   status d r w3
                   (fun tid resp ms w0 =>
                      proj1 (reporter_frame Gemini wt tid resp ms w0))
                   Ho Hok Hpass E).
        cbn [fst snd]. split.
        -- match goal with
           | |- context [reporter Gemini wt ?tid ?resp ?ms ?w0] =>
               destruct (reporter_frame Gemini wt tid resp ms w0) as (_ & Hs & _)
           end.
           rewrite Hs. cbn [sdk_log tick]. rewrite H1. reflexivity.
        -- intros r' [= <-]. apply H2. reflexivity.
      * pose proof (IH w2) as [H1 _]. fold original in H1.
        rewrite E in H1. cbn [snd] in H1.
        rewrite (through_gateway_pass_raise wt env _ (reporter Gemini) _ (consumed w)
                   status d x w3 Ho Hok Hpass E).
        destruct (IH (log_line ("Observ gateway error: " ++ exn_str x) w3))
          as [H3 H4].
        fold original in H3, H4.
        split; [rewrite H3; cbn [sdk_log log_line]; rewrite H1; reflexivity
               | exact H4].
Qed.

(** X21: a model returned by the Gemini entry point never invokes the
    provider SDK, whatever the arguments, the gateway's answers and the
    recursion limit: its [generate_content] only ever reaches the adapter
    again.  The one kind of response it can return is a synthesized
    cache-hit response. *)
Theorem wrapped_gemini_model_is_cut_off_from_the_provider :
  forall sdk wt installed model model' depth args kwargs w,
    ObservWrap.gemini wt installed model = Ok model' ->
    let out := model_generate_content sdk wt depth model' args kwargs w in
    sdk_log (snd out) = sdk_log w
    /\ (forall r, fst out = Ok r ->
                  exists c, r = GeminiGenerateContentWrapper.cached_response c).
Proof.
  intros sdk wt installed model model' depth args kwargs w H.
  apply patched_model_invariant. exact (gemini_entry_patches _ _ _ _ H).
Qed.

Lemma wrapped_gemini_model_is_cut_off_from_the_provider_witness :
  let out := model_generate_content stub_provider (session (answers 200 proceed))
                                    40 wrapped_genai_model [PStr "hi"] []
                                    fresh_world in
  sdk_log (snd out) = []
  /\ (forall r, fst out = Ok r ->
                exists c, r = GeminiGenerateContentWrapper.cached_response c).
Proof.
  exact (wrapped_gemini_model_is_cut_off_from_the_provider
           stub_provider (session (answers 200 proceed)) all_installed
           genai_model wrapped_genai_model 40 [PStr "hi"] [] fresh_world eq_refl).
Defined.

(** X22: a model returned by the Gemini entry point does serve cache hits:
    below the recursion limit, a [cache_hit] decision with content [X]
    gives the synthesized response for [X] after one decision POST. *)
Theorem wrapped_gemini_model_serves_cache_hits :
  forall sdk wt installed model model' depth args kwargs w msgs status d X,
    ObservWrap.gemini wt installed model = Ok model' ->
    gateway_messages Gemini args kwargs = Ok msgs ->
    decides wt w (Response status (Some (PDict d))) ->
    success status ->
    assoc "action" d = Some (PStr "cache_hit") ->
    assoc "content" d = Some X ->
    model_generate_content sdk wt (S depth) model' args kwargs w
    = (Ok (GeminiGenerateContentWrapper.cached_response X),
       log_post (decide_request wt
                   (envelope Gemini wt model' args kwargs (pending_metadata w)
                             (pending_session_id w) msgs))
                (consumed w)).
Proof.
  intros sdk wt installed model model' depth args kwargs w msgs status d X
         H Hn Hd Hok Ha Hc.
  rewrite (patched_model_call _ _ _ _ (gemini_entry_patches _ _ _ _ H)).
  rewrite intercepted_call_shape.
  rewrite (adapter_call_normalized _ _ _ _ _ _ _ _ Hn).
  assert (Hact : dict_get d "action" PNone = PStr "cache_hit")
    by (unfold dict_get; rewrite Ha; reflexivity).
  rewrite (through_gateway_cache_hit wt _ _ _ _ (consumed w) status d
             (decides_request wt w _ _ Hd) Hok Hact).
  unfold dict_get. rewrite Hc. reflexivity.
Qed.

Lemma wrapped_gemini_model_serves_cache_hits_witness :
  fst (model_generate_content stub_provider (session (answers 200 (cache_hit "X")))
                              1 wrapped_genai_model [PStr "hi"] [] fresh_world)
  = Ok (GeminiGenerateContentWrapper.cached_response (PStr "X")).
Proof.
  rewrite (wrapped_gemini_model_serves_cache_hits
             stub_provider (session (answers 200 (cache_hit "X"))) all_installed
             genai_model wrapped_genai_model 0 [PStr "hi"] [] fresh_world
             (PList [PDict [("role", PStr "user"); ("content", PStr "hi")]])
             200 [("action", PStr "cache_hit"); ("content", PStr "X")] (PStr "X")
             eq_refl eq_refl (fun _ _ => eq_refl) ltac:(unfold success; lia)
             eq_refl eq_refl).
  reflexivity.
Defined.

(** ** Chaining, and the requests of one call *)

(** X23: chained values are overwritten, not merged, and the two chaining
    calls can come in either order: the envelope of the next call carries
    the metadata chained last, and the session id chained last when that
    is truthy, no [external_session_id] otherwise. *)
Theorem chaining_keeps_the_last_values :
  forall p sdk wt model m1 m2 s args kwargs w msgs,
    gateway_messages p args kwargs = Ok msgs ->
    let call := intercepted_call p (sdk_invoke sdk) wt model args kwargs in
    let w1 := snd ((chain_metadata p m1 ;;; chain_session_id p s ;;;
                    chain_metadata p m2 ;;; call) w) in
    let w2 := snd ((chain_metadata p m2 ;;; chain_session_id p s ;;; call) w) in
    let w3 := snd ((chain_session_id p s ;;; chain_metadata p m2 ;;; call) w) in
    w1 = w2 /\ w2 = w3
    /\ exists env,
        envelopes wt (http_log w1) = (envelopes wt (http_log w) ++ [env])%list
        /\ dict_field env "metadata" = Some m2
        /\ dict_field env "external_session_id"
           = (if truthy s then Some s else None).
Proof.
  intros p sdk wt model m1 m2 s args kwargs w msgs Hn call w1 w2 w3.
  assert (E1 : w1 = snd (call (with_pending m2 s w)))
    by (subst w1 call; destruct p; reflexivity).
  assert (E2 : w2 = snd (call (with_pending m2 s w)))
    by (subst w2 call; destruct p; reflexivity).
  assert (E3 : w3 = snd (call (with_pending m2 s w)))
    by (subst w3 call; destruct p; reflexivity).
  split; [congruence|]. split; [congruence|].
  rewrite E1. subst call.
  destruct (intercepted_call_trace p sdk wt model args kwargs
              (with_pending m2 s w) msgs Hn) as (Henv & _ & _).
  cbn [http_log pending_metadata pending_session_id with_pending] in Henv.
  eexists. split; [exact Henv|].
  split; [apply build_completion_request_metadata|].
  unfold envelope. apply build_completion_request_session.
Qed.

Lemma chaining_keeps_the_last_values_witness :
  let wt := session refused in
  let call := intercepted_call Mistral (sdk_invoke stub_provider) wt PNone [] hello in
  let w1 := snd ((chain_metadata Mistral (PDict [("a", PInt 1)]) ;;;
                  chain_session_id Mistral PNone ;;;
                  chain_metadata Mistral (PDict [("b", PInt 2)]) ;;; call)
                   fresh_world) in
  exists env,
    envelopes wt (http_log w1) = [env]
    /\ dict_field env "metadata" = Some (PDict [("b", PInt 2)])
    /\ dict_field env "external_session_id" = None.
Proof.
  cbv zeta.
  destruct (chaining_keeps_the_last_values
              Mistral stub_provider (session refused) PNone
              (PDict [("a", PInt 1)]) (PDict [("b", PInt 2)]) PNone
              [] hello fresh_world
              (PList [PDict [("role", PStr "user"); ("content", PStr "hi")]])
              eq_refl) as (_ & _ & env & H1 & H2 & H3).
  exists env. split; [exact H1|]. split; [exact H2 | exact H3].
Defined.

Lemma reporter_posts_at_most_one_callback p wt trace_id response duration_ms w :
  posts_at_most_one_callback wt trace_id duration_ms
    (reporter p wt trace_id response duration_ms w) w.
Proof. rewrite reporter_shape. apply reporter_request_shape. Qed.

(** X24: the HTTP traffic of one intercepted call on an adapter wired to
    the provider SDK, once the normalizer has succeeded: first the decision
    request, with the bearer token and the client's default timeout; after
    it at most one callback, which carries no header; nothing else. *)
Theorem requests_of_an_intercepted_call :
  forall p sdk wt model args kwargs w msgs,
    gateway_messages p args kwargs = Ok msgs ->
    let out := intercepted_call p (sdk_invoke sdk) wt model args kwargs w in
    let decision :=
      mk_request (decide_url wt)
                 (envelope p wt model args kwargs (pending_metadata w)
                           (pending_session_id w) msgs)
                 [("Authorization", "Bearer " ++ api_key wt);
                  ("Content-Type", "application/json")]
                 None in
    http_log (snd out) = (http_log w ++ [decision])%list
    \/ exists trace_id content duration_ms tokens,
        http_log (snd out)
        = (http_log w
             ++ [decision;
                 mk_request (callback_url wt)
                            (PDict [("trace_id", trace_id);
                                    ("content", content);
                                    ("duration_ms", PInt duration_ms);
                                    ("tokens_used", tokens)])
                            [] (Some 5)])%list.
Proof.
  intros p sdk wt model args kwargs w msgs Hn out decision. subst out.
  rewrite intercepted_call_shape.
  rewrite (adapter_call_normalized _ _ _ _ _ _ _ _ Hn).
  set (env := envelope p wt model args kwargs (pending_metadata w)
                       (pending_session_id w) msgs) in *.
  change decision with (decide_request wt env). clear decision.
  set (w2 := tick (log_post (decide_request wt env) (consumed w))).
  destruct (decision_cases (http_client wt (http_log w) (decide_request wt env)))
    as [[e Hf] | [(status & d & Ho & Hok & Hact) | (status & d & Ho & Hok & Hp)]].
  - rewrite (through_gateway_failure wt env _ _ _ (consumed w) _ e eq_refl Hf).
    left. reflexivity.
  - rewrite (through_gateway_cache_hit wt env _ _ _ (consumed w) status d Ho Hok Hact).
    left. reflexivity.
  - destruct (sdk (sdk_log w) (args, kwargs)) as [r|x] eqn:Hr.
    + assert (Hcall : sdk_invoke sdk args kwargs w2
                      = (Ok r, log_call (args, kwargs) w2)).
      { unfold sdk_invoke. cbn [sdk_log w2 tick log_post consumed].
        rewrite Hr. reflexivity. }
      rewrite (through_gateway_pass_ok wt env _ (reporter p) _ (consumed w)
                 status d r (log_call (args, kwargs) w2)
                 (fun tid resp ms w0 => proj1 (reporter_frame p wt tid resp ms w0))
                 Ho Hok Hp Hcall).
      cbn [snd].
      match goal with
      | |- context [reporter p wt ?tid ?resp ?ms ?w0] =>
          destruct (reporter_posts_at_most_one_callback p wt tid resp ms w0)
            as [Hlog | (c & t & Hlog)]
      end.
      * left. rewrite Hlog. reflexivity.
      * right. eexists _, c, _, t. rewrite Hlog. subst w2. fields.
        rewrite <- app_assoc. reflexivity.
    + assert (Hcall : sdk_invoke sdk args kwargs w2
                      = (Raise x, log_call (args, kwargs) w2)).
      { unfold sdk_invoke. cbn [sdk_log w2 tick log_post consumed].
        rewrite Hr. reflexivity. }
      rewrite (through_gateway_pass_raise wt env _ (reporter p) _ (consumed w)
                 status d x (log_call (args, kwargs) w2) Ho Hok Hp Hcall).
      left. reflexivity.
Qed.

Lemma requests_of_an_intercepted_call_witness :
  let wt := session (answers 200 proceed) in
  let out := intercepted_call Anthropic (sdk_invoke (provider_answering text_response))
                              wt PNone [] hello fresh_world in
  (List.length (http_log (snd out)) <= 2)%nat
  /\ map headers (firstn 1 (http_log (snd out)))
     = [[("Authorization", "Bearer key"); ("Content-Type", "application/json")]].
Proof.
  cbv zeta.
  destruct (requests_of_an_intercepted_call
              Anthropic (provider_answering text_response)
              (session (answers 200 proceed)) PNone [] hello fresh_world
              (PList [PDict [("role", PStr "user"); ("content", PStr "hi")]])
              eq_refl) as [H | (tid & c & ms & t & H)];
    rewrite H; split; cbn; try lia; reflexivity.
Defined.
